(** * TelevisionControl/base.py: the [Television] remote-control facade
      and the [TelevisionGUI] panel, as a shallow embedding.

    The Roku client, the Android TV client, the ADB key utilities, the
    subprocess call and the GUI toolkit are external collaborators.  They
    are represented by a [World]: an oracle that decides, from the history
    of external operations so far, whether the next operation raises and
    what a property query reports.  Every external operation the code
    attempts is appended to a trace, so that the number and order of
    protocol calls can be stated.

    Python exceptions are modelled by an outcome ([Returns] / [Raises]);
    attribute assignments made before an exception is raised stay in the
    final state, as they do in Python. *)

From Stdlib Require Import Ascii String.
From stdpp Require Import base option list strings gmap.

(** ** Python values that occur in the program *)

(** An address is what [os.getenv] or a caller hands over: a [str] or [None]. *)
Definition Address := option string.

(** Python truthiness of a [str]-or-[None] value ([if ip_address:]). *)
Definition truthy_address (a : Address) : bool :=
  match a with
  | None => false
  | Some "" => false
  | Some _ => true
  end.

(** A Python [str] is represented by its UTF-8 bytes. *)
Definition byte_is (c : ascii) (n : nat) : bool := Nat.eqb (nat_of_ascii c) n.

(** [ch.lower()] for an ASCII character: A..Z are moved to a..z. *)
Definition lower_ascii (c : ascii) : ascii :=
  let n := nat_of_ascii c in
  if (65 <=? n)%nat && (n <=? 90)%nat then ascii_of_nat (n + 32) else c.

(** [s.lower()], as far as the program can observe it.  The program only
    compares the result with the ASCII words 'roku' and 'android' (lines 16,
    33 and 36).  Besides A..Z, exactly two characters have a lower-case form
    that contains an ASCII character: U+212A KELVIN SIGN (bytes 226 132
    170), whose lower-case form is k, and U+0130 (bytes 196 176), whose
    lower-case form is i followed by U+0307 (bytes 204 135).  Both are
    mapped as Python maps them.  Every other non-ASCII character is kept as
    it is; Python maps it to non-ASCII characters too, so for an ASCII word
    [t] the test [lower s = t] gives what [s.lower() == t] gives. *)
Fixpoint lower (s : string) : string :=
  match s with
  | EmptyString => EmptyString
  | String c t =>
      match t with
      | String c2 t2 =>
          if byte_is c 196 && byte_is c2 176 then
            String "i" (String (ascii_of_nat 204) (String (ascii_of_nat 135) (lower t2)))
          else
            match t2 with
            | String c3 t3 =>
                if byte_is c 226 && byte_is c2 132 && byte_is c3 170
                then String "k" (lower t3)
                else String (lower_ascii c) (lower t)
            | EmptyString => String (lower_ascii c) (lower t)
            end
      | EmptyString => String (lower_ascii c) (lower t)
      end
  end.

(** ** External collaborators *)

Module Roku.
(** The remote-control commands of the Roku client used by the program. *)
Inductive cmd : Set :=
| volume_up | volume_down | volume_mute
| right | left | down | up | select | back.

(** A [Roku(ip_address)] instance. *)
Record t : Set := New { host : Address }.
End Roku.

Module AndroidTV.
(** The methods of [AndroidTVSync] used by the program. *)
Inductive cmd : Set :=
| adb_connect | get_properties_dict | mute_volume
| right | left | down | up | enter | back.

(** An [AndroidTVSync(ip_address, signer=signer, adb_server_ip=...)]
    instance.  The signer is opaque key material passed from one
    collaborator to another and is not recorded. *)
Record t : Set := New { host : string; adb_server_ip : Address }.
End AndroidTV.

(** The exceptions the program itself raises. *)
Inductive PyError : Set :=
| ValueError (msg : string)
| NotCallable (v : option bool)   (* TypeError: calling a bool or None *)
| ConcatNone                      (* TypeError: str + None *)
| KeyError (key : string).

(** One external operation, as attempted by the program. *)
Inductive Op : Set :=
| RokuNew (ip : Address)                      (* Roku(ip_address) *)
| Popen (command : string)                    (* subprocess.Popen(..., shell=True).communicate() *)
| Keygen (path : string)                      (* keygen(private_key_path) *)
| ReadFile (path : string)                    (* open(path).read() *)
| SignerNew                                   (* PythonRSASigner(pub, priv) *)
| AndroidNew (ip : string) (server : Address) (* AndroidTVSync(ip, signer=..., adb_server_ip=...) *)
| RokuCall (h : Roku.t) (c : Roku.cmd)        (* self.roku.<c>() *)
| AndroidCall (h : AndroidTV.t) (c : AndroidTV.cmd) (* self.android.<c>() *)
| Popup (tv_name : string)                    (* sg.popup(f"{tv_name} connected successfully!") *)
| PopupError (e : Exn)                        (* sg.popup_error(str(e)) *)
| WindowNew                                   (* sg.Window('TV Control', layout, ...) *)

(** An exception: raised by the program itself, or by a collaborator while
    it performs an operation. *)
with Exn : Set :=
| Python (e : PyError)
| External (op : Op) (cause : nat).

Definition Trace := list Op.

(** A protocol call is a method call on an established session. *)
Definition is_protocol_call (o : Op) : bool :=
  match o with
  | RokuCall _ _ | AndroidCall _ _ => true
  | _ => false
  end.

Definition protocol_calls (t : Trace) : nat :=
  length (List.filter is_protocol_call t).

(** The outside world.  [raises tr op] is [Some cause] when operation [op],
    attempted after history [tr], raises; [is_volume_muted tr h] is the value
    of [get_properties_dict().get('is_volume_muted')], a [bool] or [None];
    [getenv] is the process environment. *)
Record World : Type := {
  raises : Trace -> Op -> option nat;
  is_volume_muted : Trace -> AndroidTV.t -> option bool;
  getenv : string -> Address
}.

(** ** Outcomes *)

Inductive Outcome (A : Type) : Type :=
| Returns (a : A)
| Raises (e : Exn).
Arguments Returns {A} a.
Arguments Raises {A} e.

Record Run (S A : Type) : Type := mkRun {
  final : S;           (* the object after the call *)
  log : Trace;         (* every external operation attempted so far *)
  outcome : Outcome A
}.
Arguments mkRun {S A} final log outcome.
Arguments final {S A} r.
Arguments log {S A} r.
Arguments outcome {S A} r.

(** ** A state, trace and exception monad *)

Definition Prog (S A : Type) : Type := World -> Trace -> S -> Run S A.

Definition ret {S A} (a : A) : Prog S A :=
  fun _ tr s => mkRun s tr (Returns a).

Definition raise {S A} (e : Exn) : Prog S A :=
  fun _ tr s => mkRun s tr (Raises e).

Definition bind {S A B} (p : Prog S A) (k : A -> Prog S B) : Prog S B :=
  fun w tr s =>
    let r := p w tr s in
    match outcome r with
    | Returns a => k a w (log r) (final r)
    | Raises e => mkRun (final r) (log r) (Raises e)
    end.

Declare Scope prog_scope.
Delimit Scope prog_scope with prog.
Notation "'let*' x ':=' p 'in' k" := (bind p (fun x => k))
  (at level 10, x name, p at level 100, k at level 200) : prog_scope.
Notation "p '>>>' k" := (bind p (fun _ => k))
  (at level 90, right associativity) : prog_scope.
Open Scope prog_scope.

Definition get {S} : Prog S S := fun _ tr s => mkRun s tr (Returns s).

Definition modify {S} (f : S -> S) : Prog S unit :=
  fun _ tr s => mkRun (f s) tr (Returns tt).

(** Attempt one external operation: it is logged, then the world decides. *)
Definition call {S} (op : Op) : Prog S unit :=
  fun w tr s =>
    mkRun s (tr ++ [op])
          (match raises w tr op with
           | None => Returns tt
           | Some cause => Raises (External op cause)
           end).

(** [try: p except Exception as e: h e]. *)
Definition try_except {S A} (p : Prog S A) (h : Exn -> Prog S A) : Prog S A :=
  fun w tr s =>
    let r := p w tr s in
    match outcome r with
    | Returns a => r
    | Raises e => h e w (log r) (final r)
    end.

(** ** class Television *)

Record Television : Type := mkTelevision {
  name : string;
  operating_system : string;
  roku : option Roku.t;          (* None until connected *)
  android : option AndroidTV.t;  (* None until connected *)
  _muted : option bool           (* None: not yet known *)
}.

Definition set_roku (h : option Roku.t) (tv : Television) : Television :=
  mkTelevision (name tv) (operating_system tv) h (android tv) (_muted tv).

Definition set_android (h : option AndroidTV.t) (tv : Television) : Television :=
  mkTelevision (name tv) (operating_system tv) (roku tv) h (_muted tv).

Definition set_muted (v : option bool) (tv : Television) : Television :=
  mkTelevision (name tv) (operating_system tv) (roku tv) (android tv) v.

(** Python truthiness of a mute value: only [True] is truthy. *)
Definition truthy (v : option bool) : bool :=
  match v with
  | Some true => true
  | _ => false
  end.

(** The [muted] property getter (lines 58-71). *)
Definition muted : Prog Television (option bool) :=
  let* tv := get in
  match _muted tv with
  | None =>
      match roku tv with
      | Some r =>
          call (RokuCall r Roku.volume_up) >>>
          call (RokuCall r Roku.volume_down) >>>
          modify (set_muted (Some false)) >>>
          ret (Some false)
      | None =>
          match android tv with
          | Some a =>
              fun w tr =>
                (call (AndroidCall a AndroidTV.get_properties_dict) >>>
                 modify (set_muted (is_volume_muted w tr a)) >>>
                 ret (is_volume_muted w tr a)) w tr
          | None => ret None
          end
      end
  | Some b => ret (Some b)
  end.

(** The [muted] property setter (lines 73-75). *)
Definition muted_set (value : option bool) : Prog Television unit :=
  modify (set_muted value).

(** Calling a mute value as a function: [v(False)] with [v] a bool or None. *)
Definition call_value {A} (v : option bool) : Prog Television A :=
  raise (Python (NotCallable v)).

Definition adbkey : string := "~/.android/adbkey".
Definition adbkey_pub : string := "~/.android/adbkey.pub".

(** The [if]/[elif] block of [connect] (lines 33-54): the session is
    established and stored in the handle of the operating system. *)
Definition establish (ip_address : Address) : Prog Television unit :=
  let* tv := get in
  if String.eqb (lower (operating_system tv)) "roku" then
    call (RokuNew ip_address) >>>
    modify (set_roku (Some (Roku.New ip_address)))
  else if String.eqb (lower (operating_system tv)) "android" then
    match ip_address with
    | None => raise (Python ConcatNone)
    | Some ip =>
        fun w =>
          (call (Popen ("adb connect " +:+ ip +:+ ":5555")) >>>
           call (Keygen adbkey) >>>
           call (ReadFile adbkey) >>>
           call (ReadFile adbkey_pub) >>>
           call SignerNew >>>
           call (AndroidNew ip (getenv w "adb_server_ip")) >>>
           modify (set_android (Some (AndroidTV.New ip (getenv w "adb_server_ip")))) >>>
           call (AndroidCall (AndroidTV.New ip (getenv w "adb_server_ip"))
                             AndroidTV.adb_connect)) w
    end
  else ret tt.

(** [connect] (lines 32-56).  Its last statement, [self.muted(False)],
    reads the property and then calls the value it got. *)
Definition connect (ip_address : Address) : Prog Television unit :=
  establish ip_address >>>
  let* v := muted in
  call_value v.

(** [if self.roku: self.roku.<rc>() elif self.android: self.android.<ac>()],
    the dispatch every command method starts with. *)
Definition dispatch (rc : Roku.cmd) (ac : AndroidTV.cmd) : Prog Television unit :=
  let* tv := get in
  match roku tv with
  | Some r => call (RokuCall r rc)
  | None =>
      match android tv with
      | Some a => call (AndroidCall a ac)
      | None => ret tt
      end
  end.

(** [toggle_mute] (lines 77-86). *)
Definition toggle_mute : Prog Television unit :=
  dispatch Roku.volume_mute AndroidTV.mute_volume >>>
  let* m := muted in
  if truthy m then muted_set (Some false) else muted_set (Some true).

(** [mute] (lines 88-91). *)
Definition mute : Prog Television unit :=
  let* m := muted in
  (if negb (truthy m) then toggle_mute else ret tt) >>>
  muted_set (Some true).

(** [unmute] (lines 93-96). *)
Definition unmute : Prog Television unit :=
  let* m := muted in
  (if truthy m then toggle_mute else ret tt) >>>
  muted_set (Some false).

(** The navigation commands (lines 98-133). *)
Definition right : Prog Television unit := dispatch Roku.right AndroidTV.right.
Definition left : Prog Television unit := dispatch Roku.left AndroidTV.left.
Definition down : Prog Television unit := dispatch Roku.down AndroidTV.down.
Definition up : Prog Television unit := dispatch Roku.up AndroidTV.up.
Definition select : Prog Television unit := dispatch Roku.select AndroidTV.enter.
Definition back : Prog Television unit := dispatch Roku.back AndroidTV.back.

Definition unsupported_os : string :=
  "Operating system must be Roku or Android. No other operating systems are currently supported.".

(** [Television(name, operating_system, ip_address)] (lines 12-28).  The
    result is the new object, or the exception that left the caller without
    one; the trace is returned in both cases. *)
Definition Television_init (nm os : string) (ip_address : Address)
    (w : World) (tr : Trace) : Trace * Outcome Television :=
  if bool_decide (lower os ∈ ["roku"; "android"]) then
    let self := mkTelevision nm os None None None in
    if truthy_address ip_address then
      let r := connect ip_address w tr self in
      match outcome r with
      | Returns _ => (log r, Returns (final r))
      | Raises e => (log r, Raises e)
      end
    else (tr, Returns self)
  else (tr, Raises (Python (ValueError unsupported_os))).

(** ** class TelevisionGUI *)

(** [self.tvs]: the dict from names to [Television] objects.  The window
    itself belongs to the toolkit. *)
Record TelevisionGUI : Type := mkGUI {
  tvs : gmap string Television
}.

(** What [window.read()] can return for the layout of lines 151-162: the
    window was closed, or one of the eight buttons was pressed while the
    combo box held [tv_select] (the empty string when nothing is chosen).
    The layout has no element that produces the event 'Connect'. *)
Inductive Button : Set :=
| BMute | BUnmute | BUp | BDown | BLeft | BRight | BSelect | BBack.

Inductive Event : Set :=
| WIN_CLOSED
| Pressed (b : Button) (tv_select : string).

Module GUI.

(** [self.tvs[tv_name].<method>()]: a missing key raises [KeyError]; the
    dict holds a reference, so what the method did to the object is seen
    through the dict afterwards, also when the method raised. *)
Definition on_tv {A} (tv_name : string) (p : Prog Television A)
  : Prog TelevisionGUI A :=
  fun w tr g =>
    match tvs g !! tv_name with
    | None => mkRun g tr (Raises (Python (KeyError tv_name)))
    | Some tv =>
        let r := p w tr tv in
        mkRun (mkGUI (<[tv_name := final r]> (tvs g))) (log r) (outcome r)
    end.

(** [self.tvs[tv_name].connect(ip)]. *)
Definition connect_tv (tv_name : string) (ip : Address) : Prog TelevisionGUI unit :=
  on_tv tv_name (connect ip).

(** [connect] (lines 191-196). *)
Definition connect (ip : Address) (tv_name : string) : Prog TelevisionGUI unit :=
  try_except
    (connect_tv tv_name ip >>> call (Popup tv_name))
    (fun e => call (PopupError e)).

(** The forwarding methods (lines 198-228); a [Television] object is
    always truthy, so the guard only performs the lookup. *)
Definition mute (tv_name : string) : Prog TelevisionGUI unit := on_tv tv_name mute.
Definition unmute (tv_name : string) : Prog TelevisionGUI unit := on_tv tv_name unmute.
Definition up (tv_name : string) : Prog TelevisionGUI unit := on_tv tv_name up.
Definition down (tv_name : string) : Prog TelevisionGUI unit := on_tv tv_name down.
Definition left (tv_name : string) : Prog TelevisionGUI unit := on_tv tv_name left.
Definition right (tv_name : string) : Prog TelevisionGUI unit := on_tv tv_name right.
Definition back (tv_name : string) : Prog TelevisionGUI unit := on_tv tv_name back.
Definition select (tv_name : string) : Prog TelevisionGUI unit := on_tv tv_name select.

Definition press (b : Button) (tv_select : string) : Prog TelevisionGUI unit :=
  match b with
  | BMute => mute tv_select
  | BUnmute => unmute tv_select
  | BUp => up tv_select
  | BDown => down tv_select
  | BLeft => left tv_select
  | BRight => right tv_select
  | BSelect => select tv_select
  | BBack => back tv_select
  end.

(** The [while True] loop (lines 167-188) over the events the user
    produces; when they are used up the loop is waiting in
    [window.read()]. *)
Fixpoint event_loop (events : list Event) : Prog TelevisionGUI unit :=
  match events with
  | [] => ret tt
  | WIN_CLOSED :: _ => ret tt
  | Pressed b tv_select :: rest => press b tv_select >>> event_loop rest
  end.

(** [Television(nm, os)] evaluated inside another method. *)
Definition new_television {S} (nm os : string) : Prog S Television :=
  fun w tr s =>
    let '(tr', o) := Television_init nm os None w tr in
    mkRun s tr' o.

(** [__init__] (lines 140-188). *)
Definition init (events : list Event) : Prog TelevisionGUI unit :=
  let* top := new_television "TopTV" "roku" in
  let* rgt := new_television "RightTV" "android" in
  let* lft := new_television "LeftTV" "android" in
  modify (fun _ => mkGUI (<["LeftTV" := lft]> (<["RightTV" := rgt]> (<["TopTV" := top]> ∅)))) >>>
  (fun w => connect_tv "TopTV" (getenv w "TopTVIP") w) >>>
  (fun w => connect_tv "RightTV" (getenv w "RightTVIP") w) >>>
  (fun w => connect_tv "LeftTV" (getenv w "LeftTVIP") w) >>>
  call WindowNew >>>
  event_loop events.

(** [TelevisionGUI()]: [__init__] runs on an object without attributes. *)
Definition new (events : list Event) (w : World) (tr : Trace) : Run TelevisionGUI unit :=
  init events w tr (mkGUI ∅).

End GUI.

(** ** Vocabulary of the statements *)

(** The session a command goes through: the Roku one whenever [self.roku]
    is set, otherwise the Android one. *)
Inductive Session : Set :=
| ViaRoku (h : Roku.t)
| ViaAndroid (h : AndroidTV.t).

Inductive Backed (tv : Television) : Session -> Prop :=
| BackedRoku h : roku tv = Some h -> Backed tv (ViaRoku h)
| BackedAndroid h : roku tv = None -> android tv = Some h -> Backed tv (ViaAndroid h).

(** No session at all: [connect] never populated a handle. *)
Definition disconnected (tv : Television) : Prop :=
  roku tv = None /\ android tv = None.

(** The mute button of either protocol. *)
Definition toggle_call (s : Session) : Op :=
  match s with
  | ViaRoku h => RokuCall h Roku.volume_mute
  | ViaAndroid h => AndroidCall h AndroidTV.mute_volume
  end.

(** The operating system is one of the two supported ones, whatever the
    letter case. *)
Definition supported (os : string) : Prop :=
  lower os = "roku" \/ lower os = "android".

(** The operations [connect] performs to establish a session, before it
    touches the mute state. *)
Definition establishing (op : Op) : bool :=
  match op with
  | RokuNew _ | Popen _ | Keygen _ | ReadFile _ | SignerNew | AndroidNew _ _ => true
  | AndroidCall _ AndroidTV.adb_connect => true
  | _ => false
  end.

(** The operations the [if]/[elif] block of [connect] performs, in the
    order of lines 33-54. *)
Definition setup_steps (ip : Address) (w : World) (tv : Television) : list Op :=
  if String.eqb (lower (operating_system tv)) "roku" then [RokuNew ip]
  else if String.eqb (lower (operating_system tv)) "android" then
    match ip with
    | None => []
    | Some a =>
        [Popen ("adb connect " +:+ a +:+ ":5555"); Keygen adbkey;
         ReadFile adbkey; ReadFile adbkey_pub; SignerNew;
         AndroidNew a (getenv w "adb_server_ip");
         AndroidCall (AndroidTV.New a (getenv w "adb_server_ip")) AndroidTV.adb_connect]
    end
  else [].

(** Attempting [ops] one after the other from history [tr]: the first
    operation the world lets fail, with the history before it and the cause;
    [None] when none of them fails. *)
Fixpoint first_failure (w : World) (tr : Trace) (ops : list Op)
  : option (Trace * Op * nat) :=
  match ops with
  | [] => None
  | op :: rest =>
      match raises w tr op with
      | Some cause => Some (tr, op, cause)
      | None => first_failure w (tr ++ [op]) rest
      end
  end.

(** The operating system ROKU written with U+212A KELVIN SIGN for its K. *)
Definition kelvin_roku : string :=
  String "R" (String "O"
    (String (ascii_of_nat 226) (String (ascii_of_nat 132) (String (ascii_of_nat 170)
      (String "U" EmptyString))))).

(** ** Concrete worlds and devices used in the examples *)

(** Every collaborator works, the Android TV reports that it is muted, and
    only the address of the top TV is configured. *)
Definition calm : World := {|
  raises := fun _ _ => None;
  is_volume_muted := fun _ _ => Some true;
  getenv := fun k => if String.eqb k "TopTVIP" then Some "10.0.0.2" else None
|}.

(** As [calm], but the ADB handshake is refused. *)
Definition refused : World := {|
  raises := fun _ op =>
    match op with
    | AndroidCall _ AndroidTV.adb_connect => Some 111
    | _ => None
    end;
  is_volume_muted := fun _ _ => Some true;
  getenv := fun _ => None
|}.

(** The Roku of the top TV cannot be reached: constructing the client
    raises.  The addresses of the top and left TVs are configured. *)
Definition unreachable : World := {|
  raises := fun _ op =>
    match op with
    | RokuNew _ => Some 113
    | _ => None
    end;
  is_volume_muted := fun _ _ => Some false;
  getenv := fun k =>
    if String.eqb k "TopTVIP" then Some "10.0.0.2"
    else if String.eqb k "LeftTVIP" then Some "10.0.0.4"
    else None
|}.

Definition top_tv : Television := mkTelevision "TopTV" "roku" None None None.
Definition right_tv : Television := mkTelevision "RightTV" "android" None None None.
Definition left_tv : Television := mkTelevision "LeftTV" "android" None None None.

Definition roku_box : Roku.t := Roku.New (Some "10.0.0.2").
Definition android_box : AndroidTV.t := AndroidTV.New "10.0.0.3" None.

(** Devices with an established session and a given cached mute state. *)
Definition roku_tv (m : option bool) : Television :=
  mkTelevision "TopTV" "roku" (Some roku_box) None m.
Definition android_tv (m : option bool) : Television :=
  mkTelevision "RightTV" "android" None (Some android_box) m.

(** The dict [__init__] builds before it connects anything. *)
Definition fresh_panel : TelevisionGUI :=
  mkGUI (<["LeftTV" := left_tv]> (<["RightTV" := right_tv]> (<["TopTV" := top_tv]> ∅))).

(** The mute button of the Roku cannot be pressed: the command raises. *)
Definition jammed : World := {|
  raises := fun _ op =>
    match op with
    | RokuCall _ Roku.volume_mute => Some 7
    | _ => None
    end;
  is_volume_muted := fun _ _ => Some false;
  getenv := fun _ => None
|}.

(** The Android TV answers the property query without a mute value. *)
Definition unsure : World := {|
  raises := fun _ _ => None;
  is_volume_muted := fun _ _ => None;
  getenv := fun _ => None
|}.

(** A panel whose top TV has a session. *)
Definition live_panel : TelevisionGUI :=
  mkGUI (<["RightTV" := right_tv]> (<["TopTV" := roku_tv (Some false)]> ∅)).

(** ** Relations between the states before and after a method *)

(** Two states of a Television that differ at most in the cached mute
    state. *)
Definition only_cache_differs (tv tv' : Television) : Prop :=
  name tv' = name tv /\ operating_system tv' = operating_system tv /\
  roku tv' = roku tv /\ android tv' = android tv.

(** A program whose final state is always related to its initial one. *)
Definition Preserves {S A} (R : S -> S -> Prop) (p : Prog S A) : Prop :=
  forall w tr s, R s (final (p w tr s)).

(** A handle is only ever set on the device of its own operating system. *)
Definition handles_agree (tv : Television) : Prop :=
  (roku tv <> None -> lower (operating_system tv) = "roku") /\
  (android tv <> None -> lower (operating_system tv) = "android").

(** A program that, started in state [s], ends in a state related to [s],
    adds to the trace only operations that [P s] allows and raises only
    exceptions that [Q] allows. *)
Definition Confined {S A} (R : S -> S -> Prop) (P : S -> Op -> Prop)
    (Q : Exn -> Prop) (p : Prog S A) (s : S) : Prop :=
  forall w tr,
    R s (final (p w tr s)) /\
    (exists l, log (p w tr s) = tr ++ l /\ Forall (P s) l) /\
    (forall e, outcome (p w tr s) = Raises e -> Q e).

(** The exception a collaborator raised during a protocol call. *)
Definition protocol_error (e : Exn) : Prop :=
  match e with
  | External op _ => is_protocol_call op = true
  | Python _ => False
  end.


(** No collaborator ever raises. *)
Definition reliable (w : World) : Prop :=
  forall tr op, raises w tr op = None.

(** A protocol call on the session this Television holds, the handshake
    excepted. *)
Definition own_session (tv : Television) (o : Op) : Prop :=
  match o with
  | RokuCall h _ => roku tv = Some h
  | AndroidCall h c => android tv = Some h /\ c <> AndroidTV.adb_connect
  | _ => False
  end.

(** No constraint between the state before and the state after. *)
Definition any_change : Television -> Television -> Prop := fun _ _ => True.


(** The event is a button pressed while [nm] is selected. *)
Definition selects (nm : string) (e : Event) : Prop :=
  match e with
  | Pressed _ tv_select => tv_select = nm
  | WIN_CLOSED => False
  end.

(** The user closes the window somewhere in these events. *)
Definition closes (events : list Event) : bool :=
  existsb (fun e => match e with WIN_CLOSED => true | _ => false end) events.

(** * Properties *)

(** ** The monad *)

Lemma bind_returns_inv {S A B} (p : Prog S A) (k : A -> Prog S B) w tr s b :
  outcome (bind p k w tr s) = Returns b ->
  exists a, outcome (p w tr s) = Returns a /\
            outcome (k a w (log (p w tr s)) (final (p w tr s))) = Returns b.
Proof.
  unfold bind. destruct (outcome (p w tr s)) as [a|e] eqn:E; simpl.
  - intros H. exists a. split; [reflexivity | exact H].
  - intros H. discriminate H.
Qed.

Lemma bind_raises {S A B} (p : Prog S A) (k : A -> Prog S B) w tr s e :
  outcome (p w tr s) = Raises e ->
  bind p k w tr s = mkRun (final (p w tr s)) (log (p w tr s)) (Raises e).
Proof.
  intros H. unfold bind. rewrite H. reflexivity.
Qed.

Lemma bind_returns {S A B} (p : Prog S A) (k : A -> Prog S B) w tr s a :
  outcome (p w tr s) = Returns a ->
  bind p k w tr s = k a w (log (p w tr s)) (final (p w tr s)).
Proof.
  intros H. unfold bind. rewrite H. reflexivity.
Qed.

(** A call that the world lets through only extends the trace. *)
Lemma call_ok {S} (op : Op) w tr (s : S) :
  raises w tr op = None ->
  call op w tr s = mkRun s (tr ++ [op]) (Returns tt).
Proof.
  intros H. unfold call. rewrite H. reflexivity.
Qed.

(** ** The dispatch shared by all command methods *)

Lemma dispatch_frame rc ac w tr tv :
  final (dispatch rc ac w tr tv) = tv.
Proof.
  unfold dispatch, bind, get; simpl.
  destruct (roku tv); [reflexivity|].
  destruct (android tv); reflexivity.
Qed.

Lemma dispatch_roku rc ac w tr tv h :
  roku tv = Some h ->
  dispatch rc ac w tr tv = call (RokuCall h rc) w tr tv.
Proof.
  intros H. unfold dispatch, bind, get; simpl. rewrite H. reflexivity.
Qed.

Lemma dispatch_android rc ac w tr tv h :
  roku tv = None -> android tv = Some h ->
  dispatch rc ac w tr tv = call (AndroidCall h ac) w tr tv.
Proof.
  intros Hr Ha. unfold dispatch, bind, get; simpl. rewrite Hr, Ha. reflexivity.
Qed.

Lemma dispatch_disconnected rc ac w tr tv :
  disconnected tv ->
  dispatch rc ac w tr tv = mkRun tv tr (Returns tt).
Proof.
  intros [Hr Ha]. unfold dispatch, bind, get; simpl. rewrite Hr, Ha. reflexivity.
Qed.

(** C10: up, down, left, right, select and back leave every field of the
    Television (name, operating_system, both handles, cached mute state) as
    it was, in any state and whatever the collaborators do. *)
Theorem navigation_preserves_television (w : World) (tr : Trace) (tv : Television) :
  final (up w tr tv) = tv /\ final (down w tr tv) = tv /\
  final (left w tr tv) = tv /\ final (right w tr tv) = tv /\
  final (select w tr tv) = tv /\ final (back w tr tv) = tv.
Proof.
  unfold up, down, left, right, select, back.
  repeat split; apply dispatch_frame.
Qed.

(** C8: on a connected Television, select() issues exactly the Roku
    "select" call when the device is Roku-backed and exactly the Android
    "enter" call when it is Android-backed, and returns when that call does. *)
Theorem select_maps_per_protocol (w : World) (tr : Trace) (tv : Television) (s : Session) :
  Backed tv s ->
  let op := match s with
            | ViaRoku h => RokuCall h Roku.select
            | ViaAndroid h => AndroidCall h AndroidTV.enter
            end in
  log (select w tr tv) = tr ++ [op] /\
  final (select w tr tv) = tv /\
  (raises w tr op = None -> outcome (select w tr tv) = Returns tt).
Proof.
  intros [h Hr | h Hr Ha]; simpl; unfold select.
  - rewrite (dispatch_roku _ _ _ _ _ _ Hr).
    repeat split. intros Hok. rewrite (call_ok _ _ _ _ Hok). reflexivity.
  - rewrite (dispatch_android _ _ _ _ _ _ Hr Ha).
    repeat split. intros Hok. rewrite (call_ok _ _ _ _ Hok). reflexivity.
Qed.

Lemma select_maps_per_protocol_witness :
  log (select calm [] (roku_tv (Some false))) = [RokuCall roku_box Roku.select] /\
  log (select calm [] (android_tv (Some false))) = [AndroidCall android_box AndroidTV.enter].
Proof.
  split.
  - apply (select_maps_per_protocol calm [] (roku_tv (Some false)) (ViaRoku roku_box)).
    constructor. reflexivity.
  - apply (select_maps_per_protocol calm [] (android_tv (Some false)) (ViaAndroid android_box)).
    constructor; reflexivity.
Defined.

(** ** The cached mute state *)

Lemma muted_cached w tr tv b :
  _muted tv = Some b ->
  muted w tr tv = mkRun tv tr (Returns (Some b)).
Proof.
  intros H. unfold muted, bind, get; simpl. rewrite H. reflexivity.
Qed.

Lemma muted_disconnected w tr tv :
  disconnected tv ->
  muted w tr tv = mkRun tv tr (Returns (_muted tv)).
Proof.
  intros [Hr Ha]. unfold muted, bind, get; simpl.
  destruct (_muted tv); [reflexivity|].
  rewrite Hr, Ha. reflexivity.
Qed.

Lemma muted_probe_roku w tr tv h :
  roku tv = Some h -> _muted tv = None ->
  raises w tr (RokuCall h Roku.volume_up) = None ->
  raises w (tr ++ [RokuCall h Roku.volume_up]) (RokuCall h Roku.volume_down) = None ->
  muted w tr tv =
    mkRun (set_muted (Some false) tv)
          (tr ++ [RokuCall h Roku.volume_up; RokuCall h Roku.volume_down])
          (Returns (Some false)).
Proof.
  intros Hr Hm Hup Hdown.
  unfold muted, bind, get; simpl. rewrite Hm, Hr.
  unfold call; simpl. rewrite Hup; simpl. rewrite Hdown; simpl.
  rewrite <- app_assoc. reflexivity.
Qed.

Lemma muted_query_android w tr tv h :
  roku tv = None -> android tv = Some h -> _muted tv = None ->
  raises w tr (AndroidCall h AndroidTV.get_properties_dict) = None ->
  muted w tr tv =
    mkRun (set_muted (is_volume_muted w tr h) tv)
          (tr ++ [AndroidCall h AndroidTV.get_properties_dict])
          (Returns (is_volume_muted w tr h)).
Proof.
  intros Hr Ha Hm Hq.
  unfold muted, bind, get; simpl. rewrite Hm, Hr, Ha.
  unfold call; simpl. rewrite Hq; simpl. reflexivity.
Qed.

(** C7: on a Television with a Roku session and an unknown cache, reading
    [muted] issues one volume-up and then one volume-down call, returns
    false and caches false; a read with a known cache returns the cached
    value and issues no call. *)
Theorem muted_read_roku_probe (w : World) (tr : Trace) (tv : Television) (h : Roku.t) :
  roku tv = Some h ->
  _muted tv = None ->
  raises w tr (RokuCall h Roku.volume_up) = None ->
  raises w (tr ++ [RokuCall h Roku.volume_up]) (RokuCall h Roku.volume_down) = None ->
  muted w tr tv =
    mkRun (set_muted (Some false) tv)
          (tr ++ [RokuCall h Roku.volume_up; RokuCall h Roku.volume_down])
          (Returns (Some false)) /\
  (forall w' tr', muted w' tr' (final (muted w tr tv)) =
                  mkRun (final (muted w tr tv)) tr' (Returns (Some false))) /\
  (forall w' tr' tv' b, _muted tv' = Some b ->
                        muted w' tr' tv' = mkRun tv' tr' (Returns (Some b))).
Proof.
  intros Hr Hm Hup Hdown.
  pose proof (muted_probe_roku w tr tv h Hr Hm Hup Hdown) as Hfirst.
  split; [exact Hfirst|]. split.
  - intros w' tr'. rewrite Hfirst; simpl. apply muted_cached. reflexivity.
  - intros w' tr' tv' b Hb. apply muted_cached. exact Hb.
Qed.

Lemma muted_read_roku_probe_witness :
  muted calm [] (roku_tv None) =
    mkRun (roku_tv (Some false))
          [RokuCall roku_box Roku.volume_up; RokuCall roku_box Roku.volume_down]
          (Returns (Some false)).
Proof.
  apply (muted_read_roku_probe calm [] (roku_tv None) roku_box); reflexivity.
Defined.

(** ** toggle_mute, mute and unmute *)

Lemma dispatch_backed w tr tv s :
  Backed tv s ->
  raises w tr (toggle_call s) = None ->
  dispatch Roku.volume_mute AndroidTV.mute_volume w tr tv =
    mkRun tv (tr ++ [toggle_call s]) (Returns tt).
Proof.
  intros [h Hr | h Hr Ha] Hok; simpl in *.
  - rewrite (dispatch_roku _ _ _ _ _ _ Hr). apply call_ok. exact Hok.
  - rewrite (dispatch_android _ _ _ _ _ _ Hr Ha). apply call_ok. exact Hok.
Qed.

Lemma toggle_mute_cached w tr tv s b :
  Backed tv s ->
  _muted tv = Some b ->
  raises w tr (toggle_call s) = None ->
  toggle_mute w tr tv =
    mkRun (set_muted (Some (negb b)) tv) (tr ++ [toggle_call s]) (Returns tt).
Proof.
  intros Hs Hm Hok. unfold toggle_mute.
  rewrite (bind_returns _ _ _ _ _ tt);
    rewrite (dispatch_backed _ _ _ _ Hs Hok); simpl; [|reflexivity].
  rewrite (bind_returns _ _ _ _ _ (Some b));
    rewrite (muted_cached _ _ _ _ Hm); simpl; [|reflexivity].
  destruct b; reflexivity.
Qed.

(** With an unknown cache the read inside [toggle_mute] resolves it first:
    on Roku by the volume probe, which makes three calls in all. *)
Lemma toggle_mute_unknown_roku w tr tv h :
  roku tv = Some h -> _muted tv = None ->
  raises w tr (RokuCall h Roku.volume_mute) = None ->
  raises w (tr ++ [RokuCall h Roku.volume_mute]) (RokuCall h Roku.volume_up) = None ->
  raises w (tr ++ [RokuCall h Roku.volume_mute; RokuCall h Roku.volume_up])
         (RokuCall h Roku.volume_down) = None ->
  toggle_mute w tr tv =
    mkRun (set_muted (Some true) tv)
          (tr ++ [RokuCall h Roku.volume_mute; RokuCall h Roku.volume_up;
                  RokuCall h Roku.volume_down])
          (Returns tt).
Proof.
  intros Hr Hm H1 H2 H3. unfold toggle_mute.
  rewrite (bind_returns _ _ _ _ _ tt);
    rewrite (dispatch_roku _ _ _ _ _ _ Hr), (call_ok _ _ _ _ H1); simpl; [|reflexivity].
  assert (H3' : raises w ((tr ++ [RokuCall h Roku.volume_mute]) ++ [RokuCall h Roku.volume_up])
                       (RokuCall h Roku.volume_down) = None).
  { rewrite <- app_assoc. exact H3. }
  rewrite (bind_returns _ _ _ _ _ (Some false));
    rewrite (muted_probe_roku _ _ _ _ Hr Hm H2 H3'); simpl; [|reflexivity].
  unfold muted_set, modify; simpl. rewrite <- app_assoc. reflexivity.
Qed.

(** On Android the unknown cache is resolved by one property query, and the
    cache ends as the negation of what the device reported. *)
Lemma toggle_mute_unknown_android w tr tv h :
  roku tv = None -> android tv = Some h -> _muted tv = None ->
  raises w tr (AndroidCall h AndroidTV.mute_volume) = None ->
  raises w (tr ++ [AndroidCall h AndroidTV.mute_volume])
         (AndroidCall h AndroidTV.get_properties_dict) = None ->
  toggle_mute w tr tv =
    mkRun (set_muted
             (Some (negb (truthy (is_volume_muted w (tr ++ [AndroidCall h AndroidTV.mute_volume]) h))))
             tv)
          (tr ++ [AndroidCall h AndroidTV.mute_volume;
                  AndroidCall h AndroidTV.get_properties_dict])
          (Returns tt).
Proof.
  intros Hr Ha Hm H1 H2. unfold toggle_mute.
  rewrite (bind_returns _ _ _ _ _ tt);
    rewrite (dispatch_android _ _ _ _ _ _ Hr Ha), (call_ok _ _ _ _ H1); simpl; [|reflexivity].
  rewrite (bind_returns _ _ _ _ _ (is_volume_muted w (tr ++ [AndroidCall h AndroidTV.mute_volume]) h));
    rewrite (muted_query_android _ _ _ _ Hr Ha Hm H2); simpl; [|reflexivity].
  rewrite <- app_assoc.
  destruct (truthy _); reflexivity.
Qed.

(** C4, as the code has it: on a connected Television whose cached mute
    state is known (false or true), one call to toggle_mute issues exactly
    one protocol command, the mute toggle, and leaves the cache negated. *)
Theorem toggle_mute_flips_known_state
    (w : World) (tr : Trace) (tv : Television) (s : Session) (b : bool) :
  Backed tv s ->
  _muted tv = Some b ->
  raises w tr (toggle_call s) = None ->
  toggle_mute w tr tv =
    mkRun (set_muted (Some (negb b)) tv) (tr ++ [toggle_call s]) (Returns tt) /\
  protocol_calls (log (toggle_mute w tr tv)) = protocol_calls tr + 1.
Proof.
  intros Hs Hm Hok.
  pose proof (toggle_mute_cached w tr tv s b Hs Hm Hok) as H.
  split; [exact H|].
  rewrite H; simpl. unfold protocol_calls.
  rewrite List.filter_app, List.length_app.
  destruct s; reflexivity.
Qed.

Lemma toggle_mute_flips_known_state_witness :
  toggle_mute calm [] (android_tv (Some true)) =
    mkRun (android_tv (Some false)) [AndroidCall android_box AndroidTV.mute_volume] (Returns tt).
Proof.
  apply (toggle_mute_flips_known_state calm [] (android_tv (Some true))
           (ViaAndroid android_box) true).
  - constructor; reflexivity.
  - reflexivity.
  - reflexivity.
Defined.

(** C4 as stated fails for the unknown state: with a Roku session and an
    unknown cache, one toggle_mute issues three protocol commands. *)
Lemma toggle_mute_unknown_state_counterexample :
  log (toggle_mute calm [] (roku_tv None)) =
    [RokuCall roku_box Roku.volume_mute; RokuCall roku_box Roku.volume_up;
     RokuCall roku_box Roku.volume_down] /\
  protocol_calls (log (toggle_mute calm [] (roku_tv None))) <> 1 /\
  outcome (toggle_mute calm [] (roku_tv None)) = Returns tt.
Proof.
  repeat split. vm_compute. discriminate.
Qed.

(** C6: on a connected Television, mute() issues no toggle when the cache is
    true and exactly one when it is false, and caches true; unmute() issues
    no toggle when the cache is false and exactly one when it is true, and
    caches false. *)
Theorem mute_unmute_idempotent
    (w : World) (tr : Trace) (tv : Television) (s : Session) (b : bool) :
  Backed tv s ->
  _muted tv = Some b ->
  raises w tr (toggle_call s) = None ->
  mute w tr tv =
    mkRun (set_muted (Some true) tv)
          (tr ++ (if b then [] else [toggle_call s])) (Returns tt) /\
  unmute w tr tv =
    mkRun (set_muted (Some false) tv)
          (tr ++ (if b then [toggle_call s] else [])) (Returns tt).
Proof.
  intros Hs Hm Hok. unfold mute, unmute. split.
  - rewrite (bind_returns _ _ _ _ _ (Some b));
      rewrite (muted_cached _ _ _ _ Hm); simpl; [|reflexivity].
    destruct b; simpl.
    + unfold bind, ret, muted_set, modify; simpl. rewrite app_nil_r. reflexivity.
    + rewrite (bind_returns _ _ _ _ _ tt);
        rewrite (toggle_mute_cached _ _ _ _ _ Hs Hm Hok); simpl; reflexivity.
  - rewrite (bind_returns _ _ _ _ _ (Some b));
      rewrite (muted_cached _ _ _ _ Hm); simpl; [|reflexivity].
    destruct b; simpl.
    + rewrite (bind_returns _ _ _ _ _ tt);
        rewrite (toggle_mute_cached _ _ _ _ _ Hs Hm Hok); simpl; reflexivity.
    + unfold bind, ret, muted_set, modify; simpl. rewrite app_nil_r. reflexivity.
Qed.

Lemma mute_unmute_idempotent_witness :
  mute calm [] (roku_tv (Some false)) =
    mkRun (roku_tv (Some true)) [RokuCall roku_box Roku.volume_mute] (Returns tt) /\
  unmute calm [] (roku_tv (Some false)) =
    mkRun (roku_tv (Some false)) [] (Returns tt).
Proof.
  apply (mute_unmute_idempotent calm [] (roku_tv (Some false)) (ViaRoku roku_box) false).
  - constructor. reflexivity.
  - reflexivity.
  - reflexivity.
Defined.

(** mute() on a cache that is already true, and unmute() on one that is
    already false, need no session and no cooperation of the world. *)
Lemma mute_when_muted w tr tv :
  _muted tv = Some true ->
  mute w tr tv = mkRun tv tr (Returns tt).
Proof.
  intros Hm. unfold mute.
  rewrite (bind_returns _ _ _ _ _ (Some true));
    rewrite (muted_cached _ _ _ _ Hm); simpl; [|reflexivity].
  unfold bind, ret, muted_set, modify; simpl.
  destruct tv; simpl in *; subst; reflexivity.
Qed.

Lemma unmute_when_unmuted w tr tv :
  _muted tv = Some false ->
  unmute w tr tv = mkRun tv tr (Returns tt).
Proof.
  intros Hm. unfold unmute.
  rewrite (bind_returns _ _ _ _ _ (Some false));
    rewrite (muted_cached _ _ _ _ Hm); simpl; [|reflexivity].
  unfold bind, ret, muted_set, modify; simpl.
  destruct tv; simpl in *; subst; reflexivity.
Qed.

(** ** Commands on a Television without a session *)

Lemma toggle_mute_disconnected w tr tv :
  disconnected tv ->
  toggle_mute w tr tv =
    mkRun (set_muted (Some (negb (truthy (_muted tv)))) tv) tr (Returns tt).
Proof.
  intros Hd. unfold toggle_mute.
  rewrite (bind_returns _ _ _ _ _ tt);
    rewrite (dispatch_disconnected _ _ _ _ _ Hd); simpl; [|reflexivity].
  rewrite (bind_returns _ _ _ _ _ (_muted tv));
    rewrite (muted_disconnected _ _ _ Hd); simpl; [|reflexivity].
  destruct (truthy (_muted tv)); reflexivity.
Qed.

(** C2, as the code has it: on a Television whose handles are both unset,
    every command method returns normally and issues no protocol call; the
    navigation commands leave the object as it was, toggle_mute negates the
    truth value of the cache, mute caches true and unmute caches false. *)
Theorem commands_without_session_do_nothing
    (w : World) (tr : Trace) (tv : Television) :
  disconnected tv ->
  up w tr tv = mkRun tv tr (Returns tt) /\
  down w tr tv = mkRun tv tr (Returns tt) /\
  left w tr tv = mkRun tv tr (Returns tt) /\
  right w tr tv = mkRun tv tr (Returns tt) /\
  select w tr tv = mkRun tv tr (Returns tt) /\
  back w tr tv = mkRun tv tr (Returns tt) /\
  toggle_mute w tr tv =
    mkRun (set_muted (Some (negb (truthy (_muted tv)))) tv) tr (Returns tt) /\
  mute w tr tv = mkRun (set_muted (Some true) tv) tr (Returns tt) /\
  unmute w tr tv = mkRun (set_muted (Some false) tv) tr (Returns tt).
Proof.
  intros Hd.
  repeat (split; [apply dispatch_disconnected; exact Hd|]).
  split; [apply toggle_mute_disconnected; exact Hd|].
  split.
  - unfold mute.
    rewrite (bind_returns _ _ _ _ _ (_muted tv));
      rewrite (muted_disconnected _ _ _ Hd); simpl; [|reflexivity].
    destruct (truthy (_muted tv)); simpl.
    + reflexivity.
    + rewrite (bind_returns _ _ _ _ _ tt);
        rewrite (toggle_mute_disconnected _ _ _ Hd); simpl; reflexivity.
  - unfold unmute.
    rewrite (bind_returns _ _ _ _ _ (_muted tv));
      rewrite (muted_disconnected _ _ _ Hd); simpl; [|reflexivity].
    destruct (truthy (_muted tv)); simpl.
    + rewrite (bind_returns _ _ _ _ _ tt);
        rewrite (toggle_mute_disconnected _ _ _ Hd); simpl; reflexivity.
    + reflexivity.
Qed.

Lemma commands_without_session_do_nothing_witness :
  up calm [] top_tv = mkRun top_tv [] (Returns tt).
Proof.
  apply (commands_without_session_do_nothing calm [] top_tv).
  split; reflexivity.
Defined.

(** C2 as stated fails: on a Television that was never connected, up() and
    mute() return normally instead of raising. *)
Lemma command_without_session_counterexample :
  outcome (up calm [] top_tv) = Returns tt /\
  outcome (mute calm [] top_tv) = Returns tt /\
  ~ (exists e, outcome (up calm [] top_tv) = Raises e).
Proof.
  repeat split. intros [e He]. vm_compute in He. discriminate He.
Qed.

(** ** Construction *)

(** A supported operating system is stored as it was given, and without an
    address nothing is connected. *)
Lemma supported_os_accepted nm os w tr :
  supported os ->
  Television_init nm os None w tr = (tr, Returns (mkTelevision nm os None None None)).
Proof.
  intros Hs. unfold Television_init.
  rewrite bool_decide_eq_true_2; [reflexivity|].
  destruct Hs as [H | H]; rewrite H; set_solver.
Qed.

(** C9: for every name and every operating system that is neither Roku nor
    Android in any letter case, the constructor raises at once (the code's
    ValueError), yields no Television object and performs no external
    operation, so no session exists. *)
Theorem unsupported_os_rejected
    (nm os : string) (ip : Address) (w : World) (tr : Trace) :
  ~ supported os ->
  Television_init nm os ip w tr = (tr, Raises (Python (ValueError unsupported_os))) /\
  (forall tv, snd (Television_init nm os ip w tr) <> Returns tv).
Proof.
  intros Hns.
  assert (H : Television_init nm os ip w tr =
              (tr, Raises (Python (ValueError unsupported_os)))).
  { unfold Television_init. rewrite bool_decide_eq_false_2; [reflexivity|].
    intros Hin. apply Hns. unfold supported.
    apply elem_of_cons in Hin as [H | Hin]; [left; exact H|].
    apply elem_of_cons in Hin as [H | Hin]; [right; exact H|].
    apply elem_of_nil in Hin. destruct Hin. }
  split; [exact H|].
  intros tv. rewrite H. simpl. discriminate.
Qed.

Lemma unsupported_os_rejected_witness :
  Television_init "Den" "WebOS" (Some "10.0.0.9") calm [] =
    ([], Raises (Python (ValueError unsupported_os))).
Proof.
  apply (unsupported_os_rejected "Den" "WebOS" (Some "10.0.0.9") calm []).
  unfold supported. vm_compute. intros [H | H]; discriminate H.
Defined.

(** The test of the constructor and of connect follows Python's
    lower-casing beyond ASCII: ROKU written with the Kelvin sign is a
    supported operating system, it is stored as given, and connect opens a
    Roku session for it. *)
Lemma kelvin_spelling_is_roku :
  supported kelvin_roku /\
  Television_init "Den" kelvin_roku None calm [] =
    ([], Returns (mkTelevision "Den" kelvin_roku None None None)) /\
  roku (final (connect (Some "10.0.0.2") calm []
                       (mkTelevision "Den" kelvin_roku None None None))) =
    Some roku_box.
Proof.
  split; [left; reflexivity|]. split; reflexivity.
Qed.

(** ** connect *)

Lemma connect_never_returns ip w tr tv :
  outcome (connect ip w tr tv) <> Returns tt.
Proof.
  intros H. unfold connect in H.
  apply bind_returns_inv in H as (u & _ & H).
  apply bind_returns_inv in H as (v & _ & H).
  unfold call_value, raise in H. simpl in H. discriminate H.
Qed.

(** C1, where the code departs from it: connect ends with
    [self.muted(False)], which reads the property and calls the value it
    gets, so connect never returns normally.  With a responsive Roku the
    handle is populated and the cache is false, but the call raises; with a
    responsive Android TV that reports itself muted, the cache is true. *)
Theorem connect_always_raises :
  (forall ip w tr tv, outcome (connect ip w tr tv) <> Returns tt) /\
  connect (Some "10.0.0.2") calm [] top_tv =
    mkRun (roku_tv (Some false))
          [RokuNew (Some "10.0.0.2");
           RokuCall roku_box Roku.volume_up; RokuCall roku_box Roku.volume_down]
          (Raises (Python (NotCallable (Some false)))) /\
  connect (Some "10.0.0.3") calm [] right_tv =
    mkRun (android_tv (Some true))
          [Popen "adb connect 10.0.0.3:5555"; Keygen adbkey; ReadFile adbkey;
           ReadFile adbkey_pub; SignerNew; AndroidNew "10.0.0.3" None;
           AndroidCall android_box AndroidTV.adb_connect;
           AndroidCall android_box AndroidTV.get_properties_dict]
          (Raises (Python (NotCallable (Some true)))).
Proof.
  split; [exact connect_never_returns|].
  split; reflexivity.
Qed.

(** One external operation followed by the rest of the method. *)
Lemma bind_call {S B} (op : Op) (k : unit -> Prog S B) w tr (s : S) :
  bind (call op) k w tr s =
    match raises w tr op with
    | None => k tt w (tr ++ [op]) s
    | Some cause => mkRun s (tr ++ [op]) (Raises (External op cause))
    end.
Proof.
  unfold bind, call; simpl. destruct (raises w tr op); reflexivity.
Qed.

(** When the block that establishes the session is left by a collaborator's
    exception, it is that of the last operation attempted, and only a
    refused handshake leaves a handle behind. *)
Lemma establish_raises ip w tr tv op cause :
  outcome (establish ip w tr tv) = Raises (External op cause) ->
  exists before,
    log (establish ip w tr tv) = before ++ [op] /\
    raises w before op = Some cause /\
    final (establish ip w tr tv) =
      match op with
      | AndroidCall h AndroidTV.adb_connect => set_android (Some h) tv
      | _ => tv
      end.
Proof.
  remember (establish ip w tr tv) as r eqn:Hr.
  unfold establish in Hr. unfold bind at 1, get in Hr; simpl in Hr.
  destruct (String.eqb (lower (operating_system tv)) "roku").
  { rewrite bind_call in Hr.
    destruct (raises w tr (RokuNew ip)) eqn:E; subst r; simpl; [|discriminate].
    intros [= <- <-]. exists tr. split; [reflexivity|]. split; [exact E|reflexivity]. }
  destruct (String.eqb (lower (operating_system tv)) "android");
    [|subst r; simpl; discriminate].
  destruct ip as [ip|]; [|subst r; simpl; discriminate].
  repeat (rewrite bind_call in Hr;
          match type of Hr with
          | context [raises w ?t ?o] => destruct (raises w t o) eqn:?
          end;
          [subst r; simpl; intros [= <- <-]; eexists;
           split; [reflexivity|]; split; [eassumption|reflexivity] |]).
  unfold bind at 1, modify in Hr; simpl in Hr. unfold call in Hr; simpl in Hr.
  match type of Hr with
  | context [raises w ?t ?o] => destruct (raises w t o) eqn:E
  end; subst r; simpl; [|discriminate].
  intros [= <- <-]. eexists.
  split; [reflexivity|]. split; [exact E|reflexivity].
Qed.

(** The last statement of [connect] raises nothing a step that establishes
    the session could have raised. *)
Lemma read_and_call_raises w tr tv op cause :
  outcome ((let* v := muted in call_value (A := unit) v) w tr tv) =
    Raises (External op cause) ->
  establishing op = false.
Proof.
  unfold muted. unfold bind at 1. unfold bind at 1. unfold get; simpl.
  destruct (_muted tv); [simpl; discriminate|].
  destruct (roku tv) as [r|].
  { rewrite bind_call.
    destruct (raises w tr (RokuCall r Roku.volume_up)); simpl;
      [intros [= <- _]; reflexivity|].
    rewrite bind_call.
    destruct (raises w _ (RokuCall r Roku.volume_down)); simpl;
      [intros [= <- _]; reflexivity|discriminate]. }
  destruct (android tv) as [a|]; [|simpl; discriminate].
  rewrite bind_call.
  destruct (raises w tr (AndroidCall a AndroidTV.get_properties_dict)); simpl;
    [intros [= <- _]; reflexivity|discriminate].
Qed.

(** The block that establishes the session, in terms of the first set-up
    operation that fails: the collaborator's exception comes out as it is,
    after that operation and none further; only a refused handshake leaves
    a handle behind.  When none fails the block returns, or raises the
    TypeError of an Android address that is None. *)
Lemma establish_run ip w tr tv :
  match first_failure w tr (setup_steps ip w tv) with
  | Some (before, op, cause) =>
      establish ip w tr tv =
        mkRun (match op with
               | AndroidCall h AndroidTV.adb_connect => set_android (Some h) tv
               | _ => tv
               end)
              (before ++ [op]) (Raises (External op cause))
  | None =>
      outcome (establish ip w tr tv) = Returns tt \/
      outcome (establish ip w tr tv) = Raises (Python ConcatNone)
  end.
Proof.
  remember (establish ip w tr tv) as r eqn:Hr.
  unfold establish in Hr. unfold bind at 1, get in Hr; simpl in Hr.
  unfold setup_steps.
  destruct (String.eqb (lower (operating_system tv)) "roku").
  { rewrite bind_call in Hr. cbn [first_failure].
    destruct (raises w tr (RokuNew ip)) eqn:E; subst r; simpl;
      [reflexivity | left; reflexivity]. }
  destruct (String.eqb (lower (operating_system tv)) "android");
    [|subst r; simpl; left; reflexivity].
  destruct ip as [ip|]; [|subst r; simpl; right; reflexivity].
  repeat (rewrite bind_call in Hr; cbn [first_failure];
          match type of Hr with
          | context [raises w ?t ?o] =>
              let E := fresh "E" in
              destruct (raises w t o) eqn:E; [subst r; reflexivity|]
          end).
  unfold bind at 1, modify in Hr; simpl in Hr. unfold call in Hr; simpl in Hr.
  cbn [first_failure].
  match type of Hr with
  | context [raises w ?t ?o] => destruct (raises w t o) eqn:E7
  end; subst r; simpl; [reflexivity | left; reflexivity].
Qed.

(** C5, as the code has it.  When a step that establishes the session is
    the first to raise, connect fails with the collaborator's exception as
    it is (not wrapped in another error), that step is the last operation
    attempted, and the Television is left as it was before the call, except
    when the failing step is the Android handshake, where the android
    handle already holds the new session.  Conversely, whenever connect
    ends in the exception of such a step, that step was the first to raise
    and the Television is in the state just described. *)
Theorem connect_failure_state
    (ip : Address) (w : World) (tr : Trace) (tv : Television) (op : Op) (cause : nat) :
  (forall before,
     first_failure w tr (setup_steps ip w tv) = Some (before, op, cause) ->
     connect ip w tr tv =
       mkRun (match op with
              | AndroidCall h AndroidTV.adb_connect => set_android (Some h) tv
              | _ => tv
              end)
             (before ++ [op]) (Raises (External op cause))) /\
  (outcome (connect ip w tr tv) = Raises (External op cause) ->
   establishing op = true ->
   (exists before,
      first_failure w tr (setup_steps ip w tv) = Some (before, op, cause) /\
      log (connect ip w tr tv) = before ++ [op] /\
      raises w before op = Some cause) /\
   final (connect ip w tr tv) =
     match op with
     | AndroidCall h AndroidTV.adb_connect => set_android (Some h) tv
     | _ => tv
     end).
Proof.
  pose proof (establish_run ip w tr tv) as Hrun.
  split.
  - intros before Hff. rewrite Hff in Hrun.
    unfold connect.
    rewrite (bind_raises _ _ _ _ _ (External op cause)); rewrite Hrun; reflexivity.
  - intros H Hop.
    destruct (first_failure w tr (setup_steps ip w tv)) as [[[before op'] cause']|]
      eqn:Hff.
    + assert (Hc : connect ip w tr tv =
                   mkRun (match op' with
                          | AndroidCall h AndroidTV.adb_connect => set_android (Some h) tv
                          | _ => tv
                          end)
                         (before ++ [op']) (Raises (External op' cause'))).
      { unfold connect.
        rewrite (bind_raises _ _ _ _ _ (External op' cause')); rewrite Hrun; reflexivity. }
      rewrite Hc in H |- *. simpl in H. injection H as <- <-. simpl.
      split; [|reflexivity].
      exists before. split; [reflexivity|]. split; [reflexivity|].
      destruct (establish_raises ip w tr tv op' cause') as (b & Hlog & Hcause & _).
      { rewrite Hrun. reflexivity. }
      rewrite Hrun in Hlog. simpl in Hlog.
      apply app_inj_tail in Hlog as [-> _]. exact Hcause.
    + exfalso. unfold connect in H. destruct Hrun as [Hret | Hraise].
      * rewrite (bind_returns _ _ _ _ _ tt Hret) in H.
        apply read_and_call_raises in H. congruence.
      * rewrite (bind_raises _ _ _ _ _ _ Hraise) in H. simpl in H. discriminate H.
Qed.

Lemma connect_failure_state_witness :
  connect (Some "10.0.0.3") refused [] right_tv =
    mkRun (set_android (Some android_box) right_tv)
          [Popen "adb connect 10.0.0.3:5555"; Keygen adbkey; ReadFile adbkey;
           ReadFile adbkey_pub; SignerNew; AndroidNew "10.0.0.3" None;
           AndroidCall android_box AndroidTV.adb_connect]
          (Raises (External (AndroidCall android_box AndroidTV.adb_connect) 111)) /\
  final (connect (Some "10.0.0.3") refused [] right_tv) =
    set_android (Some android_box) right_tv.
Proof.
  split.
  - apply (proj1 (connect_failure_state (Some "10.0.0.3") refused [] right_tv
                    (AndroidCall android_box AndroidTV.adb_connect) 111)
                 [Popen "adb connect 10.0.0.3:5555"; Keygen adbkey; ReadFile adbkey;
                  ReadFile adbkey_pub; SignerNew; AndroidNew "10.0.0.3" None]).
    reflexivity.
  - apply (proj2 (connect_failure_state (Some "10.0.0.3") refused [] right_tv
                    (AndroidCall android_box AndroidTV.adb_connect) 111)).
    + reflexivity.
    + reflexivity.
Defined.

(** C5 as stated fails: when the ADB handshake is refused, connect fails
    and the android handle is populated all the same. *)
Lemma refused_handshake_counterexample :
  outcome (connect (Some "10.0.0.3") refused [] right_tv) =
    Raises (External (AndroidCall android_box AndroidTV.adb_connect) 111) /\
  android (final (connect (Some "10.0.0.3") refused [] right_tv)) = Some android_box /\
  ~ (roku (final (connect (Some "10.0.0.3") refused [] right_tv)) = None /\
     android (final (connect (Some "10.0.0.3") refused [] right_tv)) = None).
Proof.
  split; [reflexivity|]. split; [reflexivity|].
  intros [_ H]. vm_compute in H. discriminate H.
Qed.

(** ** The panel *)

Lemma on_tv_found {A} (p : Prog Television A) nm w tr g tv :
  tvs g !! nm = Some tv ->
  GUI.on_tv nm p w tr g =
    mkRun (mkGUI (<[nm := final (p w tr tv)]> (tvs g)))
          (log (p w tr tv)) (outcome (p w tr tv)).
Proof.
  intros H. unfold GUI.on_tv. rewrite H. reflexivity.
Qed.

(** A navigation command forwarded to a device without a session. *)
Lemma on_tv_dispatch_disconnected rc ac nm w tr g tv :
  tvs g !! nm = Some tv ->
  disconnected tv ->
  GUI.on_tv nm (dispatch rc ac) w tr g = mkRun g tr (Returns tt).
Proof.
  intros Hl Hd. rewrite (on_tv_found _ _ _ _ _ _ Hl).
  rewrite (dispatch_disconnected _ _ _ _ _ Hd); simpl.
  rewrite (insert_id _ _ _ Hl). destruct g; reflexivity.
Qed.

(** What [__init__] has done when it reaches the first connect. *)
Lemma init_unfold events w tr :
  GUI.new events w tr =
    ((fun w => GUI.connect_tv "TopTV" (getenv w "TopTVIP") w) >>>
     (fun w => GUI.connect_tv "RightTV" (getenv w "RightTVIP") w) >>>
     (fun w => GUI.connect_tv "LeftTV" (getenv w "LeftTVIP") w) >>>
     call WindowNew >>>
     GUI.event_loop events) w tr fresh_panel.
Proof. reflexivity. Qed.

Lemma bind_raises_as {S A B} (p : Prog S A) (k : A -> Prog S B) w tr s r e :
  p w tr s = r ->
  outcome r = Raises e ->
  bind p k w tr s = mkRun (final r) (log r) (Raises e).
Proof.
  intros <- H. apply bind_raises. exact H.
Qed.

(** An exception in the first connect is the result of [__init__]. *)
Lemma init_first_connect_raises events w tr e :
  outcome (connect (getenv w "TopTVIP") w tr top_tv) = Raises e ->
  GUI.new events w tr =
    mkRun (mkGUI (<["TopTV" := final (connect (getenv w "TopTVIP") w tr top_tv)]>
                    (tvs fresh_panel)))
          (log (connect (getenv w "TopTVIP") w tr top_tv))
          (Raises e).
Proof.
  intros He. rewrite init_unfold.
  apply (bind_raises_as _ _ w tr fresh_panel
           (mkRun (mkGUI (<["TopTV" := final (connect (getenv w "TopTVIP") w tr top_tv)]>
                            (tvs fresh_panel)))
                  (log (connect (getenv w "TopTVIP") w tr top_tv))
                  (outcome (connect (getenv w "TopTVIP") w tr top_tv))) e).
  - cbv beta. unfold GUI.connect_tv.
    apply (on_tv_found _ _ _ _ _ top_tv). reflexivity.
  - exact He.
Qed.

(** C3, as the code has it: no handler surrounds the connects of
    [__init__].  When connect raises for the first device, the same error
    comes out of the initialization, nothing further is attempted (the log
    is that of this one connect, so no other device is contacted and no
    window is opened) and the other two devices stay without a session.
    A navigation command forwarded to a device without a session returns
    normally, with no protocol call and the panel unchanged. *)
Theorem init_aborts_at_first_failure
    (events : list Event) (w : World) (tr : Trace) (e : Exn) :
  outcome (connect (getenv w "TopTVIP") w tr top_tv) = Raises e ->
  (outcome (GUI.new events w tr) = Raises e /\
   log (GUI.new events w tr) = log (connect (getenv w "TopTVIP") w tr top_tv) /\
   tvs (final (GUI.new events w tr)) !! "RightTV" = Some right_tv /\
   tvs (final (GUI.new events w tr)) !! "LeftTV" = Some left_tv) /\
  (forall (g : TelevisionGUI) (nm : string) (tv : Television) w' tr',
      tvs g !! nm = Some tv ->
      disconnected tv ->
      GUI.up nm w' tr' g = mkRun g tr' (Returns tt) /\
      GUI.down nm w' tr' g = mkRun g tr' (Returns tt) /\
      GUI.left nm w' tr' g = mkRun g tr' (Returns tt) /\
      GUI.right nm w' tr' g = mkRun g tr' (Returns tt) /\
      GUI.select nm w' tr' g = mkRun g tr' (Returns tt) /\
      GUI.back nm w' tr' g = mkRun g tr' (Returns tt)).
Proof.
  intros He. split.
  - rewrite (init_first_connect_raises events w tr e He).
    cbn [outcome log final tvs].
    split; [reflexivity|]. split; [reflexivity|].
    split; (rewrite lookup_insert_ne by discriminate; reflexivity).
  - intros g nm tv w' tr' Hl Hd.
    unfold GUI.up, GUI.down, GUI.left, GUI.right, GUI.select, GUI.back.
    unfold up, down, left, right, select, back.
    repeat split; apply (on_tv_dispatch_disconnected _ _ _ _ _ _ tv Hl Hd).
Qed.

Lemma init_aborts_at_first_failure_witness :
  outcome (GUI.new [Pressed BUp "LeftTV"; WIN_CLOSED] unreachable []) =
    Raises (External (RokuNew (Some "10.0.0.2")) 113) /\
  log (GUI.new [Pressed BUp "LeftTV"; WIN_CLOSED] unreachable []) =
    log (connect (getenv unreachable "TopTVIP") unreachable [] top_tv) /\
  tvs (final (GUI.new [Pressed BUp "LeftTV"; WIN_CLOSED] unreachable [])) !! "RightTV" =
    Some right_tv /\
  tvs (final (GUI.new [Pressed BUp "LeftTV"; WIN_CLOSED] unreachable [])) !! "LeftTV" =
    Some left_tv.
Proof.
  apply (init_aborts_at_first_failure [Pressed BUp "LeftTV"; WIN_CLOSED] unreachable []
           (External (RokuNew (Some "10.0.0.2")) 113)).
  reflexivity.
Defined.

(** C3 as stated fails.  With the address of RightTV (the Android device)
    missing and every collaborator responsive, the initialization raises
    and never opens the window, so no panel exists to control TopTV; and a
    command forwarded to the never connected RightTV returns normally
    instead of failing. *)
Lemma panel_init_counterexample :
  getenv calm "RightTVIP" = None /\
  outcome (GUI.new [Pressed BUp "TopTV"; WIN_CLOSED] calm []) =
    Raises (Python (NotCallable (Some false))) /\
  log (GUI.new [Pressed BUp "TopTV"; WIN_CLOSED] calm []) =
    [RokuNew (Some "10.0.0.2");
     RokuCall roku_box Roku.volume_up; RokuCall roku_box Roku.volume_down] /\
  outcome (GUI.up "RightTV" calm [] fresh_panel) = Returns tt /\
  log (GUI.up "RightTV" calm [] fresh_panel) = [].
Proof.
  repeat split.
Qed.


(** * Further properties of the code *)

(** ** Frames: what a method leaves alone *)

Lemma bind_inv {S A B} (p : Prog S A) (k : A -> Prog S B) w tr s b :
  outcome (bind p k w tr s) = Returns b ->
  exists a, outcome (p w tr s) = Returns a /\
            bind p k w tr s = k a w (log (p w tr s)) (final (p w tr s)).
Proof.
  unfold bind. destruct (outcome (p w tr s)) as [a|e] eqn:E; simpl.
  - intros _. exists a. split; reflexivity.
  - intros H. discriminate H.
Qed.

Section Preservation.
Context {S : Type} (R : S -> S -> Prop) `{!PreOrder R}.

Lemma preserves_ret {A} (a : A) : Preserves R (ret a).
Proof. intros w tr s. simpl. reflexivity. Qed.

Lemma preserves_raise {A} (e : Exn) : Preserves R (raise (A := A) e).
Proof. intros w tr s. simpl. reflexivity. Qed.

Lemma preserves_get : Preserves R get.
Proof. intros w tr s. simpl. reflexivity. Qed.

Lemma preserves_call (op : Op) : Preserves R (call op).
Proof. intros w tr s. simpl. reflexivity. Qed.

Lemma preserves_modify (f : S -> S) :
  (forall s, R s (f s)) -> Preserves R (modify f).
Proof. intros H w tr s. simpl. apply H. Qed.

Lemma preserves_bind {A B} (p : Prog S A) (k : A -> Prog S B) :
  Preserves R p -> (forall a, Preserves R (k a)) -> Preserves R (bind p k).
Proof.
  intros Hp Hk w tr s. unfold bind.
  destruct (outcome (p w tr s)) as [a|e]; simpl.
  - transitivity (final (p w tr s)); [apply Hp | apply Hk].
  - apply Hp.
Qed.

Lemma preserves_if {A} (c : bool) (p q : Prog S A) :
  Preserves R p -> Preserves R q -> Preserves R (if c then p else q).
Proof. destruct c; intros; assumption. Qed.

End Preservation.

#[local] Instance only_cache_differs_preorder : PreOrder only_cache_differs.
Proof.
  split.
  - intros tv. repeat split.
  - intros a b c (H1 & H2 & H3 & H4) (H5 & H6 & H7 & H8).
    repeat split; congruence.
Qed.

Lemma set_muted_only_cache v tv : only_cache_differs tv (set_muted v tv).
Proof. repeat split. Qed.

Ltac preserve :=
  repeat first
    [ apply preserves_ret; tc_solve
    | apply preserves_raise; tc_solve
    | apply preserves_get; tc_solve
    | apply preserves_call; tc_solve
    | apply preserves_modify; apply set_muted_only_cache
    | apply preserves_if
    | apply preserves_bind; [tc_solve| |intros ?] ].

Lemma muted_preserves : Preserves only_cache_differs muted.
Proof.
  unfold muted. apply preserves_bind; [tc_solve|preserve|intros tv0].
  destruct (_muted tv0); [preserve|].
  destruct (roku tv0); [preserve|].
  destruct (android tv0); [|preserve].
  intros w tr. revert w tr. change (Preserves only_cache_differs
    (fun w tr =>
       (call (AndroidCall t AndroidTV.get_properties_dict) >>>
        modify (set_muted (is_volume_muted w tr t)) >>>
        ret (is_volume_muted w tr t)) w tr)).
  intros w tr s.
  apply (preserves_bind only_cache_differs
           (call (AndroidCall t AndroidTV.get_properties_dict))
           (fun _ => modify (set_muted (is_volume_muted w tr t)) >>>
                     ret (is_volume_muted w tr t))); [preserve|intros _; preserve].
Qed.

Lemma dispatch_preserves rc ac : Preserves only_cache_differs (dispatch rc ac).
Proof.
  intros w tr s. rewrite dispatch_frame. reflexivity.
Qed.

Lemma toggle_mute_preserves : Preserves only_cache_differs toggle_mute.
Proof.
  unfold toggle_mute, muted_set.
  apply preserves_bind; [tc_solve|apply dispatch_preserves|intros _].
  apply preserves_bind; [tc_solve|apply muted_preserves|intros m].
  preserve.
Qed.

(** X1: reading [muted], toggle_mute, mute and unmute never change the
    name, the operating system or either handle of the Television; only the
    cached mute state can differ afterwards.  This holds in every state and
    whatever the collaborators do. *)
Theorem mute_methods_only_touch_cache (w : World) (tr : Trace) (tv : Television) :
  only_cache_differs tv (final (muted w tr tv)) /\
  only_cache_differs tv (final (toggle_mute w tr tv)) /\
  only_cache_differs tv (final (mute w tr tv)) /\
  only_cache_differs tv (final (unmute w tr tv)).
Proof.
  split; [apply muted_preserves|].
  split; [apply toggle_mute_preserves|].
  split.
  - unfold mute, muted_set.
    apply preserves_bind; [tc_solve|apply muted_preserves|intros m].
    apply preserves_bind; [tc_solve| |intros _; preserve].
    apply preserves_if; [apply toggle_mute_preserves|preserve].
  - unfold unmute, muted_set.
    apply preserves_bind; [tc_solve|apply muted_preserves|intros m].
    apply preserves_bind; [tc_solve| |intros _; preserve].
    apply preserves_if; [apply toggle_mute_preserves|preserve].
Qed.

(** ** What mute, unmute and toggle_mute guarantee when they return *)

Lemma toggle_mute_returns_known w tr tv :
  outcome (toggle_mute w tr tv) = Returns tt ->
  exists b, _muted (final (toggle_mute w tr tv)) = Some b.
Proof.
  unfold toggle_mute. intros H.
  destruct (bind_inv _ _ _ _ _ _ H) as (u & _ & Heq). rewrite Heq in H |- *.
  destruct (bind_inv _ _ _ _ _ _ H) as (m & _ & Heq'). rewrite Heq'.
  destruct (truthy m); simpl; eexists; reflexivity.
Qed.

(** X2: whenever mute returns normally the cached state is true, whenever
    unmute returns normally it is false, and whenever toggle_mute returns
    normally it is known; in every state, with or without a session, and
    whatever the collaborators do. *)
Theorem mute_methods_postcondition (w : World) (tr : Trace) (tv : Television) :
  (outcome (mute w tr tv) = Returns tt ->
   _muted (final (mute w tr tv)) = Some true) /\
  (outcome (unmute w tr tv) = Returns tt ->
   _muted (final (unmute w tr tv)) = Some false) /\
  (outcome (toggle_mute w tr tv) = Returns tt ->
   exists b, _muted (final (toggle_mute w tr tv)) = Some b).
Proof.
  split; [|split; [|apply toggle_mute_returns_known]].
  - unfold mute. intros H.
    destruct (bind_inv _ _ _ _ _ _ H) as (m & _ & Heq). rewrite Heq in H |- *.
    destruct (bind_inv _ _ _ _ _ _ H) as (u & _ & Heq'). rewrite Heq'.
    reflexivity.
  - unfold unmute. intros H.
    destruct (bind_inv _ _ _ _ _ _ H) as (m & _ & Heq). rewrite Heq in H |- *.
    destruct (bind_inv _ _ _ _ _ _ H) as (u & _ & Heq'). rewrite Heq'.
    reflexivity.
Qed.

Lemma mute_methods_postcondition_witness :
  _muted (final (mute unsure [] (android_tv None))) = Some true /\
  _muted (final (unmute calm [] (roku_tv None))) = Some false.
Proof.
  split.
  - apply (mute_methods_postcondition unsure [] (android_tv None)). reflexivity.
  - apply (mute_methods_postcondition calm [] (roku_tv None)). reflexivity.
Defined.

(** ** A command that fails *)

(** X3: when the mute command of the active protocol raises, toggle_mute
    lets the collaborator's exception through and leaves the cached state
    as it was, having attempted that one call; so does mute on a cache that
    is false and unmute on a cache that is true (the cache is not forced to
    the target value). *)
Theorem failed_toggle_keeps_cache
    (w : World) (tr : Trace) (tv : Television) (s : Session) (cause : nat) :
  Backed tv s ->
  raises w tr (toggle_call s) = Some cause ->
  toggle_mute w tr tv =
    mkRun tv (tr ++ [toggle_call s]) (Raises (External (toggle_call s) cause)) /\
  (_muted tv = Some false ->
   mute w tr tv =
     mkRun tv (tr ++ [toggle_call s]) (Raises (External (toggle_call s) cause))) /\
  (_muted tv = Some true ->
   unmute w tr tv =
     mkRun tv (tr ++ [toggle_call s]) (Raises (External (toggle_call s) cause))).
Proof.
  intros Hs Hfail.
  assert (Hd : dispatch Roku.volume_mute AndroidTV.mute_volume w tr tv =
               mkRun tv (tr ++ [toggle_call s])
                     (Raises (External (toggle_call s) cause))).
  { destruct Hs as [h Hr | h Hr Ha]; simpl in *.
    - rewrite (dispatch_roku _ _ _ _ _ _ Hr). unfold call. rewrite Hfail. reflexivity.
    - rewrite (dispatch_android _ _ _ _ _ _ Hr Ha). unfold call. rewrite Hfail.
      reflexivity. }
  assert (Ht : toggle_mute w tr tv =
               mkRun tv (tr ++ [toggle_call s])
                     (Raises (External (toggle_call s) cause))).
  { unfold toggle_mute.
    rewrite (bind_raises _ _ _ _ _ (External (toggle_call s) cause));
      rewrite Hd; reflexivity. }
  split; [exact Ht|]. split; intros Hm.
  - unfold mute.
    rewrite (bind_returns _ _ _ _ _ (Some false));
      rewrite (muted_cached _ _ _ _ Hm); simpl; [|reflexivity].
    rewrite (bind_raises _ _ _ _ _ (External (toggle_call s) cause));
      rewrite Ht; reflexivity.
  - unfold unmute.
    rewrite (bind_returns _ _ _ _ _ (Some true));
      rewrite (muted_cached _ _ _ _ Hm); simpl; [|reflexivity].
    rewrite (bind_raises _ _ _ _ _ (External (toggle_call s) cause));
      rewrite Ht; reflexivity.
Qed.

Lemma failed_toggle_keeps_cache_witness :
  mute jammed [] (roku_tv (Some false)) =
    mkRun (roku_tv (Some false)) [RokuCall roku_box Roku.volume_mute]
          (Raises (External (RokuCall roku_box Roku.volume_mute) 7)).
Proof.
  apply (failed_toggle_keeps_cache jammed [] (roku_tv (Some false)) (ViaRoku roku_box) 7).
  - constructor. reflexivity.
  - reflexivity.
  - reflexivity.
Defined.

(** ** Composition of mute commands *)

(** X4: on a connected Television with a known cached state, two
    toggle_mute calls in a row issue the mute command twice and restore the
    Television exactly. *)
Theorem toggle_mute_twice_restores
    (w : World) (tr : Trace) (tv : Television) (s : Session) (b : bool) :
  Backed tv s ->
  _muted tv = Some b ->
  raises w tr (toggle_call s) = None ->
  raises w (tr ++ [toggle_call s]) (toggle_call s) = None ->
  (toggle_mute >>> toggle_mute) w tr tv =
    mkRun tv (tr ++ [toggle_call s; toggle_call s]) (Returns tt).
Proof.
  intros Hs Hm H1 H2.
  rewrite (bind_returns _ _ _ _ _ tt);
    rewrite (toggle_mute_cached _ _ _ _ _ Hs Hm H1); simpl; [|reflexivity].
  assert (Hs' : Backed (set_muted (Some (negb b)) tv) s).
  { destruct Hs; constructor; assumption. }
  rewrite (toggle_mute_cached _ _ _ _ (negb b) Hs' eq_refl H2).
  rewrite negb_involutive, <- app_assoc. simpl.
  destruct tv; simpl in *; subst; reflexivity.
Qed.

Lemma toggle_mute_twice_restores_witness :
  (toggle_mute >>> toggle_mute) calm [] (android_tv (Some true)) =
    mkRun (android_tv (Some true))
          [AndroidCall android_box AndroidTV.mute_volume;
           AndroidCall android_box AndroidTV.mute_volume]
          (Returns tt).
Proof.
  apply (toggle_mute_twice_restores calm [] (android_tv (Some true))
           (ViaAndroid android_box) true).
  - constructor; reflexivity.
  - reflexivity.
  - reflexivity.
  - reflexivity.
Defined.

(** ** Resolving an unknown cache *)

(** X5: on a Television with only an Android session and an unknown cache,
    reading [muted] issues exactly one property query, returns what the
    device reports and caches it.  When the device reports no value the
    cache stays unknown, so the next read queries the device again. *)
Theorem muted_read_android_query
    (w : World) (tr : Trace) (tv : Television) (h : AndroidTV.t) :
  roku tv = None ->
  android tv = Some h ->
  _muted tv = None ->
  raises w tr (AndroidCall h AndroidTV.get_properties_dict) = None ->
  muted w tr tv =
    mkRun (set_muted (is_volume_muted w tr h) tv)
          (tr ++ [AndroidCall h AndroidTV.get_properties_dict])
          (Returns (is_volume_muted w tr h)) /\
  (is_volume_muted w tr h = None ->
   raises w (tr ++ [AndroidCall h AndroidTV.get_properties_dict])
          (AndroidCall h AndroidTV.get_properties_dict) = None ->
   log ((muted >>> muted) w tr tv) =
     tr ++ [AndroidCall h AndroidTV.get_properties_dict;
            AndroidCall h AndroidTV.get_properties_dict]).
Proof.
  intros Hr Ha Hm Hq.
  pose proof (muted_query_android w tr tv h Hr Ha Hm Hq) as Hfirst.
  split; [exact Hfirst|].
  intros Hnone Hq2.
  rewrite (bind_returns _ _ _ _ _ (is_volume_muted w tr h));
    rewrite Hfirst; simpl; [|reflexivity].
  rewrite Hnone.
  rewrite (muted_query_android w _ (set_muted None tv) h Hr Ha eq_refl Hq2); simpl.
  rewrite <- app_assoc. reflexivity.
Qed.

Lemma muted_read_android_query_witness :
  muted calm [] (android_tv None) =
    mkRun (android_tv (Some true))
          [AndroidCall android_box AndroidTV.get_properties_dict]
          (Returns (Some true)) /\
  log ((muted >>> muted) unsure [] (android_tv None)) =
    [AndroidCall android_box AndroidTV.get_properties_dict;
     AndroidCall android_box AndroidTV.get_properties_dict].
Proof.
  split.
  - apply (muted_read_android_query calm [] (android_tv None) android_box);
      reflexivity.
  - apply (muted_read_android_query unsure [] (android_tv None) android_box);
      reflexivity.
Defined.

(** X6: on a Television with a Roku session and an unknown cache, unmute
    issues the volume-up / volume-down probe and nothing else and caches
    false; mute issues the probe and then the mute command, three calls in
    that order, and caches true. *)
Theorem mute_unmute_unknown_roku
    (w : World) (tr : Trace) (tv : Television) (h : Roku.t) :
  roku tv = Some h ->
  _muted tv = None ->
  raises w tr (RokuCall h Roku.volume_up) = None ->
  raises w (tr ++ [RokuCall h Roku.volume_up]) (RokuCall h Roku.volume_down) = None ->
  unmute w tr tv =
    mkRun (set_muted (Some false) tv)
          (tr ++ [RokuCall h Roku.volume_up; RokuCall h Roku.volume_down])
          (Returns tt) /\
  (raises w (tr ++ [RokuCall h Roku.volume_up; RokuCall h Roku.volume_down])
          (RokuCall h Roku.volume_mute) = None ->
   mute w tr tv =
     mkRun (set_muted (Some true) tv)
           (tr ++ [RokuCall h Roku.volume_up; RokuCall h Roku.volume_down;
                   RokuCall h Roku.volume_mute])
           (Returns tt)).
Proof.
  intros Hr Hm Hup Hdown.
  pose proof (muted_probe_roku w tr tv h Hr Hm Hup Hdown) as Hprobe.
  split.
  - unfold unmute.
    rewrite (bind_returns _ _ _ _ _ (Some false));
      rewrite Hprobe; simpl; reflexivity.
  - intros Hmute. unfold mute.
    rewrite (bind_returns _ _ _ _ _ (Some false));
      rewrite Hprobe; simpl; [|reflexivity].
    assert (Hs : Backed (set_muted (Some false) tv) (ViaRoku h)).
    { constructor. exact Hr. }
    rewrite (bind_returns _ _ _ _ _ tt);
      rewrite (toggle_mute_cached w _ _ (ViaRoku h) false Hs eq_refl Hmute);
      simpl; [|reflexivity].
    unfold muted_set, modify; simpl. rewrite <- app_assoc. reflexivity.
Qed.

Lemma mute_unmute_unknown_roku_witness :
  unmute calm [] (roku_tv None) =
    mkRun (roku_tv (Some false))
          [RokuCall roku_box Roku.volume_up; RokuCall roku_box Roku.volume_down]
          (Returns tt) /\
  mute calm [] (roku_tv None) =
    mkRun (roku_tv (Some true))
          [RokuCall roku_box Roku.volume_up; RokuCall roku_box Roku.volume_down;
           RokuCall roku_box Roku.volume_mute]
          (Returns tt).
Proof.
  split.
  - apply (mute_unmute_unknown_roku calm [] (roku_tv None) roku_box); reflexivity.
  - apply (mute_unmute_unknown_roku calm [] (roku_tv None) roku_box); reflexivity.
Defined.

(** ** What connect changes *)

(** The block that establishes the session leaves the Television as it
    was, or sets the handle of its own operating system. *)
Lemma establish_final ip w tr tv :
  final (establish ip w tr tv) = tv \/
  (lower (operating_system tv) = "roku" /\
   final (establish ip w tr tv) = set_roku (Some (Roku.New ip)) tv) \/
  (lower (operating_system tv) = "android" /\
   exists a, final (establish ip w tr tv) = set_android (Some a) tv).
Proof.
  remember (establish ip w tr tv) as r eqn:Hr.
  unfold establish in Hr. unfold bind at 1, get in Hr; simpl in Hr.
  destruct (String.eqb (lower (operating_system tv)) "roku") eqn:Eroku.
  { apply String.eqb_eq in Eroku. rewrite bind_call in Hr.
    destruct (raises w tr (RokuNew ip)); subst r; simpl;
      [left; reflexivity | right; left; split; [exact Eroku|reflexivity]]. }
  destruct (String.eqb (lower (operating_system tv)) "android") eqn:Eandroid;
    [|subst r; left; reflexivity].
  apply String.eqb_eq in Eandroid.
  destruct ip as [ip|]; [|subst r; left; reflexivity].
  repeat (rewrite bind_call in Hr;
          match type of Hr with
          | context [raises w ?t ?o] => destruct (raises w t o)
          end;
          [subst r; left; reflexivity|]).
  unfold bind at 1, modify in Hr; simpl in Hr. unfold call in Hr; simpl in Hr.
  subst r; simpl. right; right. split; [exact Eandroid|].
  eexists. reflexivity.
Qed.

Lemma read_and_call_preserves :
  Preserves only_cache_differs (let* v := muted in call_value (A := unit) v).
Proof.
  apply preserves_bind; [tc_solve|apply muted_preserves|intros v].
  unfold call_value. preserve.
Qed.

Lemma connect_final ip w tr tv :
  only_cache_differs (final (establish ip w tr tv)) (final (connect ip w tr tv)).
Proof.
  unfold connect, bind.
  destruct (outcome (establish ip w tr tv)) as [u|e]; simpl.
  - apply read_and_call_preserves.
  - reflexivity.
Qed.

(** X7: connect never changes the name or the operating system; it changes
    the roku handle only on a Television whose operating system is Roku and
    the android handle only on one whose operating system is Android, in
    any letter case.  So if every handle that is set belongs to the
    operating system before connect, the same holds after it, however
    connect ends. *)
Theorem connect_touches_own_handle
    (ip : Address) (w : World) (tr : Trace) (tv : Television) :
  name (final (connect ip w tr tv)) = name tv /\
  operating_system (final (connect ip w tr tv)) = operating_system tv /\
  (roku (final (connect ip w tr tv)) <> roku tv ->
   lower (operating_system tv) = "roku") /\
  (android (final (connect ip w tr tv)) <> android tv ->
   lower (operating_system tv) = "android") /\
  (handles_agree tv -> handles_agree (final (connect ip w tr tv))).
Proof.
  destruct (connect_final ip w tr tv) as (Hn & Ho & Hr & Ha).
  unfold handles_agree. rewrite Hn, Ho, Hr, Ha.
  destruct (establish_final ip w tr tv) as [-> | [[Hos ->] | [Hos [a ->]]]]; simpl.
  - repeat split; try (intros; congruence); tauto.
  - repeat split; try (intros; congruence); tauto.
  - repeat split; try (intros; congruence); tauto.
Qed.

Lemma connect_touches_own_handle_witness :
  handles_agree (final (connect (Some "10.0.0.3") refused [] right_tv)).
Proof.
  apply (connect_touches_own_handle (Some "10.0.0.3") refused [] right_tv).
  split; intros H; exfalso; apply H; reflexivity.
Defined.

(** X8: connect does not reset a cached mute state that is already known:
    after connect, however it ends, the cache holds the same value; and
    when the session was established, connect makes no further call and
    ends in the TypeError of calling that value. *)
Theorem connect_keeps_known_cache
    (ip : Address) (w : World) (tr : Trace) (tv : Television) (b : bool) :
  _muted tv = Some b ->
  _muted (final (connect ip w tr tv)) = Some b /\
  (outcome (establish ip w tr tv) = Returns tt ->
   connect ip w tr tv =
     mkRun (final (establish ip w tr tv)) (log (establish ip w tr tv))
           (Raises (Python (NotCallable (Some b))))).
Proof.
  intros Hm.
  assert (He : _muted (final (establish ip w tr tv)) = Some b).
  { destruct (establish_final ip w tr tv) as [-> | [[_ ->] | [_ [a ->]]]];
      exact Hm. }
  assert (Hok : outcome (establish ip w tr tv) = Returns tt ->
                connect ip w tr tv =
                  mkRun (final (establish ip w tr tv)) (log (establish ip w tr tv))
                        (Raises (Python (NotCallable (Some b))))).
  { intros Hret. unfold connect.
    rewrite (bind_returns _ _ _ _ _ tt Hret).
    rewrite (bind_returns _ _ _ _ _ (Some b));
      rewrite (muted_cached _ _ _ _ He); simpl; reflexivity. }
  split; [|exact Hok].
  destruct (outcome (establish ip w tr tv)) as [[]|e] eqn:Hout.
  - rewrite (Hok eq_refl). exact He.
  - unfold connect. rewrite (bind_raises _ _ _ _ _ e Hout). exact He.
Qed.

Lemma connect_keeps_known_cache_witness :
  connect (Some "10.0.0.2") calm [] (roku_tv (Some true)) =
    mkRun (roku_tv (Some true)) [RokuNew (Some "10.0.0.2")]
          (Raises (Python (NotCallable (Some true)))).
Proof.
  apply (connect_keeps_known_cache (Some "10.0.0.2") calm [] (roku_tv (Some true)) true);
    reflexivity.
Defined.

(** X9: on an Android Television, connect with no address (an unset
    environment variable) raises the TypeError of concatenating None to a
    string before any external operation is attempted, and leaves the
    Television as it was. *)
Theorem connect_android_without_address
    (w : World) (tr : Trace) (tv : Television) :
  lower (operating_system tv) = "android" ->
  connect None w tr tv = mkRun tv tr (Raises (Python ConcatNone)).
Proof.
  intros Hos. unfold connect, establish.
  unfold bind, get; simpl. rewrite Hos. reflexivity.
Qed.

Lemma connect_android_without_address_witness :
  connect None calm [] (mkTelevision "RightTV" "Android" None None None) =
    mkRun (mkTelevision "RightTV" "Android" None None None) []
          (Raises (Python ConcatNone)).
Proof.
  apply (connect_android_without_address calm []
           (mkTelevision "RightTV" "Android" None None None)).
  reflexivity.
Defined.

(** ** The constructor with and without an address *)

(** X10: with a supported operating system and no address, or the empty
    string, the constructor performs no external operation and yields a
    Television that keeps the name and the operating system as given, has
    no session and an unknown cache. *)
Theorem constructor_without_address
    (nm os : string) (ip : Address) (w : World) (tr : Trace) :
  supported os ->
  truthy_address ip = false ->
  Television_init nm os ip w tr = (tr, Returns (mkTelevision nm os None None None)).
Proof.
  intros Hs Hip. unfold Television_init.
  rewrite bool_decide_eq_true_2.
  - rewrite Hip. reflexivity.
  - destruct Hs as [H | H]; rewrite H; set_solver.
Qed.

Lemma constructor_without_address_witness :
  Television_init "Den" "ROKU" (Some "") calm [] =
    ([], Returns (mkTelevision "Den" "ROKU" None None None)).
Proof.
  apply (constructor_without_address "Den" "ROKU" (Some "") calm []).
  - left. reflexivity.
  - reflexivity.
Defined.

(** X11: with an address that is not empty the constructor never yields a
    Television: either the operating system is rejected, or the connect it
    runs raises. *)
Theorem constructor_with_address_never_returns
    (nm os : string) (ip : Address) (w : World) (tr : Trace) :
  truthy_address ip = true ->
  exists e, snd (Television_init nm os ip w tr) = Raises e.
Proof.
  intros Hip. unfold Television_init.
  destruct (bool_decide (lower os ∈ ["roku"; "android"])); [|eexists; reflexivity].
  rewrite Hip.
  destruct (outcome (connect ip w tr (mkTelevision nm os None None None)))
    as [[]|e] eqn:Hc.
  - exfalso. exact (connect_never_returns _ _ _ _ Hc).
  - exists e. reflexivity.
Qed.

Lemma constructor_with_address_never_returns_witness :
  exists e, snd (Television_init "TopTV" "roku" (Some "10.0.0.2") calm []) = Raises e.
Proof.
  apply (constructor_with_address_never_returns "TopTV" "roku" (Some "10.0.0.2") calm []).
  reflexivity.
Defined.

(** ** Which operations a method can perform *)

Section Confinement.
Context {S : Type} (R : S -> S -> Prop) (P : S -> Op -> Prop) (Q : Exn -> Prop)
        `{!PreOrder R}.
Hypothesis P_back : forall s s' o, R s s' -> P s' o -> P s o.

Lemma confined_ret {A} (a : A) s : Confined R P Q (ret a) s.
Proof.
  intros w tr. simpl. split; [reflexivity|]. split.
  - exists []. rewrite app_nil_r. split; [reflexivity|constructor].
  - intros e H. discriminate H.
Qed.


Lemma confined_modify (f : S -> S) s : R s (f s) -> Confined R P Q (modify f) s.
Proof.
  intros H w tr. simpl. split; [exact H|]. split.
  - exists []. rewrite app_nil_r. split; [reflexivity|constructor].
  - intros e He. discriminate He.
Qed.

Lemma confined_call (op : Op) s :
  P s op -> (forall cause, Q (External op cause)) -> Confined R P Q (call op) s.
Proof.
  intros H HQ w tr. simpl. split; [reflexivity|]. split.
  - exists [op]. split; [reflexivity|]. constructor; [exact H|constructor].
  - intros e. destruct (raises w tr op); [|discriminate].
    intros [= <-]. apply HQ.
Qed.

Lemma confined_bind {A B} (p : Prog S A) (k : A -> Prog S B) s :
  Confined R P Q p s ->
  (forall a s', R s s' -> Confined R P Q (k a) s') ->
  Confined R P Q (bind p k) s.
Proof.
  intros Hp Hk w tr. unfold bind.
  destruct (Hp w tr) as (HR & (l & Hl & HP) & HQ).
  destruct (outcome (p w tr s)) as [a|e]; simpl.
  - destruct (Hk a _ HR w (log (p w tr s))) as (HR' & (l' & Hl' & HP') & HQ').
    split; [transitivity (final (p w tr s)); assumption|]. split; [|exact HQ'].
    exists (l ++ l'). rewrite Hl', Hl, app_assoc. split; [reflexivity|].
    apply Forall_app. split; [exact HP|].
    eapply Forall_impl; [exact HP'|]. intros o. apply P_back. exact HR.
  - split; [exact HR|]. split; [exists l; split; assumption|].
    intros e' [= <-]. apply HQ. reflexivity.
Qed.

Lemma confined_bind_get {B} (k : S -> Prog S B) s :
  Confined R P Q (k s) s -> Confined R P Q (bind get k) s.
Proof.
  intros Hk w tr. unfold bind, get; simpl. apply Hk.
Qed.

End Confinement.


Lemma own_session_back tv tv' o :
  only_cache_differs tv tv' -> own_session tv' o -> own_session tv o.
Proof.
  intros (_ & _ & Hr & Ha). destruct o; simpl; try tauto.
  - rewrite Hr. tauto.
  - rewrite Ha. tauto.
Qed.

(** The methods that send commands are confined to the session of the
    Television and to the exceptions of its protocol calls. *)
#[local] Abbreviation Command :=
  (Confined only_cache_differs own_session protocol_error).

Ltac command_bind :=
  apply (confined_bind only_cache_differs own_session protocol_error own_session_back).

Lemma muted_confined tv : Command muted tv.
Proof.
  unfold muted. apply (confined_bind_get _ _ _).
  destruct (_muted tv); [apply (confined_ret _ _ _)|].
  destruct (roku tv) as [r|] eqn:Hr.
  { command_bind;
      [apply (confined_call _ _ _); [exact Hr|reflexivity] | intros _ s1 H1].
    command_bind;
      [apply (confined_call _ _ _);
         [simpl; destruct H1 as (_ & _ & -> & _); exact Hr|reflexivity]
      | intros _ s2 H2].
    command_bind;
      [apply (confined_modify _ _ _); apply set_muted_only_cache | intros _ s3 H3].
    apply (confined_ret _ _ _). }
  destruct (android tv) as [a|] eqn:Ha; [|apply (confined_ret _ _ _)].
  intros w tr.
  apply (confined_bind only_cache_differs own_session protocol_error own_session_back
           (call (AndroidCall a AndroidTV.get_properties_dict))
           (fun _ => modify (set_muted (is_volume_muted w tr a)) >>>
                     ret (is_volume_muted w tr a))).
  - apply (confined_call _ _ _); [|reflexivity]. simpl. split; [exact Ha|discriminate].
  - intros _ s1 H1.
    command_bind;
      [apply (confined_modify _ _ _); apply set_muted_only_cache | intros _ s2 H2].
    apply (confined_ret _ _ _).
Qed.

Lemma dispatch_confined rc ac tv :
  ac <> AndroidTV.adb_connect -> Command (dispatch rc ac) tv.
Proof.
  intros Hac. unfold dispatch. apply (confined_bind_get _ _ _).
  destruct (roku tv) as [r|] eqn:Hr;
    [apply (confined_call _ _ _); [exact Hr|reflexivity]|].
  destruct (android tv) as [a|] eqn:Ha; [|apply (confined_ret _ _ _)].
  apply (confined_call _ _ _); [|reflexivity]. simpl. split; assumption.
Qed.

Lemma toggle_mute_confined tv : Command toggle_mute tv.
Proof.
  unfold toggle_mute, muted_set.
  command_bind; [apply dispatch_confined; discriminate | intros _ s1 _].
  command_bind; [apply muted_confined | intros m s2 _].
  destruct (truthy m); apply (confined_modify _ _ _); apply set_muted_only_cache.
Qed.

Lemma mute_confined tv : Command mute tv.
Proof.
  unfold mute, muted_set.
  command_bind; [apply muted_confined | intros m s1 _].
  command_bind.
  - destruct (negb (truthy m)); [apply toggle_mute_confined|apply (confined_ret _ _ _)].
  - intros _ s2 _. apply (confined_modify _ _ _); apply set_muted_only_cache.
Qed.

Lemma unmute_confined tv : Command unmute tv.
Proof.
  unfold unmute, muted_set.
  command_bind; [apply muted_confined | intros m s1 _].
  command_bind.
  - destruct (truthy m); [apply toggle_mute_confined|apply (confined_ret _ _ _)].
  - intros _ s2 _. apply (confined_modify _ _ _); apply set_muted_only_cache.
Qed.

Lemma commands_confined tv :
  Forall (fun p : Prog Television unit => Command p tv)
         [up; down; left; right; select; back; toggle_mute; mute; unmute].
Proof.
  repeat apply List.Forall_cons; try apply List.Forall_nil.
  1-6: apply dispatch_confined; discriminate.
  - apply toggle_mute_confined.
  - apply mute_confined.
  - apply unmute_confined.
Qed.

(** X12: whatever the collaborators do, every command method and the read
    of [muted] only appends to the history of operations, and what it adds
    are protocol calls on the session the Television itself holds: it
    never sets up a session, never runs the handshake, never starts a
    subprocess, never addresses another device and never touches the GUI. *)
Theorem commands_stay_on_own_session (w : World) (tr : Trace) (tv : Television) :
  Forall (fun p : Prog Television unit =>
            exists l, log (p w tr tv) = tr ++ l /\ Forall (own_session tv) l)
         [up; down; left; right; select; back; toggle_mute; mute; unmute] /\
  exists l, log (muted w tr tv) = tr ++ l /\ Forall (own_session tv) l.
Proof.
  split; [|apply (muted_confined tv w tr)].
  eapply Forall_impl; [apply (commands_confined tv)|].
  intros p Hp. apply (Hp w tr).
Qed.



#[local] Instance any_change_preorder : PreOrder any_change.
Proof. split; intros ?; intros; exact I. Qed.





(** ** The panel cannot start *)


(** ** The connect method of the panel *)



(** ** The event loop *)

Lemma press_is_on_tv b sel :
  exists p : Prog Television unit, GUI.press b sel = GUI.on_tv sel p.
Proof.
  destruct b; eexists; reflexivity.
Qed.

(** X15: a button pressed while the selection is not a name of the panel
    (for instance while the combo box is still empty) raises KeyError; the
    loop ends there, the remaining events are not processed, no external
    operation is attempted and the panel is unchanged. *)
Theorem press_with_unknown_selection
    (b : Button) (sel : string) (rest : list Event)
    (w : World) (tr : Trace) (g : TelevisionGUI) :
  tvs g !! sel = None ->
  GUI.event_loop (Pressed b sel :: rest) w tr g =
    mkRun g tr (Raises (Python (KeyError sel))).
Proof.
  intros Hnone. simpl.
  apply (bind_raises_as _ _ w tr g (mkRun g tr (Raises (Python (KeyError sel)))));
    [|reflexivity].
  destruct (press_is_on_tv b sel) as [p ->].
  unfold GUI.on_tv. rewrite Hnone. reflexivity.
Qed.

Lemma press_with_unknown_selection_witness :
  GUI.event_loop [Pressed BMute ""; Pressed BUp "TopTV"] calm [] live_panel =
    mkRun live_panel [] (Raises (Python (KeyError ""))).
Proof.
  apply (press_with_unknown_selection BMute "" [Pressed BUp "TopTV"] calm [] live_panel).
  reflexivity.
Defined.

(** X16: the loop stops when the window is closed: events that follow
    WIN_CLOSED have no effect on the result, the trace or the panel. *)
Theorem events_after_close_are_ignored
    (events rest : list Event) (w : World) (tr : Trace) (g : TelevisionGUI) :
  GUI.event_loop (events ++ WIN_CLOSED :: rest) w tr g = GUI.event_loop events w tr g.
Proof.
  revert w tr g. induction events as [|[|b sel] events IH]; intros w tr g; simpl.
  - reflexivity.
  - reflexivity.
  - unfold bind. destruct (outcome (GUI.press b sel w tr g)); [apply IH|reflexivity].
Qed.

Lemma bind_assoc {S A B C} (p : Prog S A) (k : A -> Prog S B) (k' : B -> Prog S C)
    w tr s :
  bind (bind p k) k' w tr s = bind p (fun a => bind (k a) k') w tr s.
Proof.
  unfold bind. destruct (outcome (p w tr s)); reflexivity.
Qed.

Lemma bind_ext {S A B} (p : Prog S A) (k k' : A -> Prog S B) w tr s :
  (forall a w' tr' s', k a w' tr' s' = k' a w' tr' s') ->
  bind p k w tr s = bind p k' w tr s.
Proof.
  intros H. unfold bind. destruct (outcome (p w tr s)); [apply H|reflexivity].
Qed.

(** X17: as long as the window is not closed, handling one batch of events
    and then another is the same as handling them in one go. *)
Theorem event_loop_app
    (events more : list Event) (w : World) (tr : Trace) (g : TelevisionGUI) :
  closes events = false ->
  GUI.event_loop (events ++ more) w tr g =
    (GUI.event_loop events >>> GUI.event_loop more) w tr g.
Proof.
  revert w tr g. induction events as [|[|b sel] events IH]; intros w tr g Hc; simpl in *.
  - reflexivity.
  - discriminate Hc.
  - rewrite bind_assoc. apply bind_ext. intros _ w' tr' g'. apply IH. exact Hc.
Qed.

Lemma event_loop_app_witness :
  GUI.event_loop ([Pressed BMute "TopTV"] ++ [Pressed BUnmute "TopTV"]) calm [] live_panel =
    (GUI.event_loop [Pressed BMute "TopTV"] >>>
     GUI.event_loop [Pressed BUnmute "TopTV"]) calm [] live_panel.
Proof.
  apply (event_loop_app [Pressed BMute "TopTV"] [Pressed BUnmute "TopTV"]
           calm [] live_panel).
  reflexivity.
Defined.

Lemma on_tv_lookup_other {A} (p : Prog Television A) nm other w tr g :
  other <> nm ->
  tvs (final (GUI.on_tv nm p w tr g)) !! other = tvs g !! other.
Proof.
  intros Hne. unfold GUI.on_tv.
  destruct (tvs g !! nm); simpl; [|reflexivity].
  apply lookup_insert_ne. congruence.
Qed.

Lemma on_tv_dom {A} (p : Prog Television A) nm w tr g :
  dom (tvs (final (GUI.on_tv nm p w tr g))) = dom (tvs g).
Proof.
  unfold GUI.on_tv.
  destruct (tvs g !! nm) as [tv|] eqn:Hl; simpl; [|reflexivity].
  apply dom_insert_lookup_L. rewrite Hl. eexists. reflexivity.
Qed.

(** X18: the set of device names of the panel never changes while events
    are handled, however the loop ends. *)
Theorem event_loop_keeps_names
    (events : list Event) (w : World) (tr : Trace) (g : TelevisionGUI) :
  dom (tvs (final (GUI.event_loop events w tr g))) = dom (tvs g).
Proof.
  revert w tr g. induction events as [|[|b sel] events IH]; intros w tr g; simpl.
  - reflexivity.
  - reflexivity.
  - assert (Hp : dom (tvs (final (GUI.press b sel w tr g))) = dom (tvs g)).
    { destruct (press_is_on_tv b sel) as [p ->]. apply on_tv_dom. }
    unfold bind. destruct (outcome (GUI.press b sel w tr g)); simpl.
    + rewrite IH. exact Hp.
    + exact Hp.
Qed.

(** X19: a device that is not selected in any of the events is left
    exactly as it was by the loop: commands sent to one TV never change
    another. *)
Theorem event_loop_leaves_others
    (other : string) (events : list Event) (w : World) (tr : Trace) (g : TelevisionGUI) :
  Forall (fun e => ~ selects other e) events ->
  tvs (final (GUI.event_loop events w tr g)) !! other = tvs g !! other.
Proof.
  revert w tr g. induction events as [|[|b sel] events IH]; intros w tr g Hall; simpl.
  - reflexivity.
  - reflexivity.
  - apply List.Forall_cons_iff in Hall as [Hne Hall]. simpl in Hne.
    assert (Hp : tvs (final (GUI.press b sel w tr g)) !! other = tvs g !! other).
    { destruct (press_is_on_tv b sel) as [p ->]. apply on_tv_lookup_other.
      congruence. }
    unfold bind. destruct (outcome (GUI.press b sel w tr g)); simpl.
    + rewrite (IH _ _ _ Hall). exact Hp.
    + exact Hp.
Qed.

Lemma event_loop_leaves_others_witness :
  tvs (final (GUI.event_loop [Pressed BMute "TopTV"; Pressed BUp "TopTV"]
                             calm [] live_panel)) !! "RightTV" =
    tvs live_panel !! "RightTV".
Proof.
  apply (event_loop_leaves_others "RightTV" [Pressed BMute "TopTV"; Pressed BUp "TopTV"]
           calm [] live_panel).
  repeat constructor; simpl; discriminate.
Defined.

(** ** connect with responsive collaborators *)

(** X21: when no collaborator raises and the cache is unknown, connect
    still ends in the TypeError of its last statement, but the session is
    in place.  On a Roku Television the handle holds the new client, the
    volume probe has run and the cache is false.  On an Android Television
    the handle holds the new session and the cache is whatever the device
    reported to the one property query, not necessarily false. *)
Theorem connect_with_responsive_collaborators
    (ip : Address) (w : World) (tr : Trace) (tv : Television) :
  reliable w ->
  _muted tv = None ->
  (lower (operating_system tv) = "roku" ->
   connect ip w tr tv =
     mkRun (set_muted (Some false) (set_roku (Some (Roku.New ip)) tv))
           (tr ++ [RokuNew ip; RokuCall (Roku.New ip) Roku.volume_up;
                   RokuCall (Roku.New ip) Roku.volume_down])
           (Raises (Python (NotCallable (Some false))))) /\
  (lower (operating_system tv) = "android" ->
   roku tv = None ->
   forall a, ip = Some a ->
     let h := AndroidTV.New a (getenv w "adb_server_ip") in
     let ops := [Popen ("adb connect " +:+ a +:+ ":5555"); Keygen adbkey;
                 ReadFile adbkey; ReadFile adbkey_pub; SignerNew;
                 AndroidNew a (getenv w "adb_server_ip");
                 AndroidCall h AndroidTV.adb_connect] in
     connect ip w tr tv =
       mkRun (set_muted (is_volume_muted w (tr ++ ops) h) (set_android (Some h) tv))
             (tr ++ ops ++ [AndroidCall h AndroidTV.get_properties_dict])
             (Raises (Python (NotCallable (is_volume_muted w (tr ++ ops) h))))).
Proof.
  intros Hrel Hm. split.
  - intros Hos. unfold connect.
    assert (He : establish ip w tr tv =
                 mkRun (set_roku (Some (Roku.New ip)) tv) (tr ++ [RokuNew ip]) (Returns tt)).
    { unfold establish. unfold bind at 1, get; simpl. rewrite Hos; simpl.
      rewrite bind_call, Hrel. reflexivity. }
    rewrite (bind_returns _ _ _ _ _ tt); rewrite He; simpl; [|reflexivity].
    rewrite (bind_returns _ _ _ _ _ (Some false));
      rewrite (muted_probe_roku w _ (set_roku (Some (Roku.New ip)) tv) (Roku.New ip)
                 eq_refl Hm (Hrel _ _) (Hrel _ _)); simpl; [|reflexivity].
    rewrite <- app_assoc. reflexivity.
  - intros Hos Hr a -> h ops. unfold connect.
    assert (He : establish (Some a) w tr tv =
                 mkRun (set_android (Some h) tv) (tr ++ ops) (Returns tt)).
    { unfold establish. unfold bind at 1, get; simpl. rewrite Hos; simpl.
      repeat (rewrite bind_call, Hrel).
      unfold bind, modify, call; simpl. rewrite Hrel.
      unfold ops. repeat rewrite <- app_assoc. reflexivity. }
    rewrite (bind_returns _ _ _ _ _ tt); rewrite He; simpl; [|reflexivity].
    rewrite (bind_returns _ _ _ _ _ (is_volume_muted w (tr ++ ops) h));
      rewrite (muted_query_android w _ (set_android (Some h) tv) h
                 Hr eq_refl Hm (Hrel _ _)); simpl; [|reflexivity].
    unfold ops. repeat rewrite <- app_assoc. reflexivity.
Qed.

Lemma connect_with_responsive_collaborators_witness :
  connect (Some "10.0.0.3") calm [] right_tv =
    mkRun (android_tv (Some true))
          [Popen "adb connect 10.0.0.3:5555"; Keygen adbkey; ReadFile adbkey;
           ReadFile adbkey_pub; SignerNew; AndroidNew "10.0.0.3" None;
           AndroidCall android_box AndroidTV.adb_connect;
           AndroidCall android_box AndroidTV.get_properties_dict]
          (Raises (Python (NotCallable (Some true)))).
Proof.
  apply (connect_with_responsive_collaborators (Some "10.0.0.3") calm [] right_tv).
  - intros tr op. reflexivity.
  - reflexivity.
  - reflexivity.
  - reflexivity.
  - reflexivity.
Defined.
